(** * gprs-sim900: the command orchestrator of the SIM900 driver

    A shallow embedding of the GPRS object of [index.js]: contact
    establishment, [_txrx], command chains, voice calls, notification
    dispatch and [sendSMS].

    The repository holds two revisions of the file.  They agree on
    everything modelled here except for the points selected by [version]:
    the attempt ceiling and the start patterns of [_establishContact], the
    guard of [sendSMS], one delay of [togglePower] and the capitalisation
    of two messages.  [postmaster.js] and [packetizer.js] are not among the
    sources: the replies of the Postmaster are a parameter of the model.

    JavaScript callbacks are written in continuation-passing style over an
    explicit [World]; every effect on a collaborator (Postmaster, power pin,
    event emitter, the caller's callback) is appended to the world's log. *)

From Stdlib Require Import List String Ascii ZArith Bool Lia Arith PeanoNat.
From Stdlib Require Import Permutation DecimalString DecimalPos.
Import ListNotations.
Local Open Scope string_scope.
Local Open Scope Z_scope.

(** ** Values *)

(** The two revisions of the driver. *)
Inductive version := IndexJs | Part000.

(** A string is a sequence of code units below 256; frames and commands
    of the modem are such strings. *)

(** An [Error] object: [new Error(message)] has no [type]; the errors the
    Postmaster reports for an elapsed patience carry [type = 'timeout']. *)
Record JsError := mkError { type : option string; message : string }.

(** What is written to the modem: a string, or a Buffer of bytes. *)
Inductive txmsg := MStr (s : string) | MBuf (bytes : list Z).

(** The [alternate] argument: [[starts, ends, substringMode]].  An end
    token can be [undefined] ([None]) when it is read past an array. *)
Record alternate := mkAlt {
  starts : list string;
  ends : list (option string);
  substringMode : bool
}.

(** The arguments of one [postmaster.send]. *)
Record request := mkRequest {
  rq_message : txmsg;
  rq_patience : Z;
  rq_alternate : option alternate
}.

(** What the Postmaster hands to the callback: [(err, data)]. *)
Record reply := mkReply { err : option JsError; data : list string }.

(** A JavaScript number as far as [parseInt] can produce it.  A number is
    a double: it holds every integer up to 2^53 in magnitude, [Num z]; a
    longer run of digits is read as a double near its value [z], which
    need not be [z], [Approx z]; a minus sign before zero gives the
    negative zero. *)
Inductive jsnum := Num (z : Z) | Approx (z : Z) | NegZero | NaN.

(** Second argument handed to a caller's callback. *)
Inductive jsdata :=
| DFalse
| DNull
| DFrames (frames : list string)
| DIds (ids : list jsnum).

(** An entry of the [replies] array of a chain: an array of strings, or
    one of the false-y values a caller may put there. *)
Inductive expected := ENull | EUndefined | EFalse | EArr (frames : list string).

(** User supplied notification handlers are opaque; they are named. *)
Definition handler := nat.

(** A property of [notificationCallbacks]: a function or an array. *)
Inductive jsval := VFun (h : handler) | VArr (fs : list handler).

Inductive exn := TypeError (what : string).

(** ** Effects *)

Inductive event :=
| EvSend (rq : request)                       (* postmaster.send(...) *)
| EvForceClear                                (* postmaster.forceClear() *)
| EvSubscribe                                 (* postmaster.on('unsolicited', ...) *)
| EvPower (high : bool)                       (* power.high() / power.low() *)
| EvSetTimeout (ms : Z)                       (* setTimeout(..., ms) elapsed *)
| EvEmit (name : string) (arg : option bool)  (* self.emit(name[, arg]) *)
| EvCallback (e : option JsError) (d : jsdata) (* the caller's callback *)
| EvInvoke (h : handler) (frame : string).    (* a notification handler *)

Inductive status := Live | Threw (e : exn) | NoFuel.

Record World := mkWorld {
  inACall : bool;                                (* self.inACall *)
  notificationCallbacks : list (string * jsval); (* self.notificationCallbacks *)
  callee_inACall : option bool;  (* property inACall of the object that is
                                    [this] inside a callback the Postmaster calls *)
  pending : bool;                (* Postmaster: a request is outstanding *)
  listeners : nat;               (* Postmaster: listeners on 'unsolicited' *)
  sent : nat;                    (* number of requests sent so far *)
  state : status;
  log : list event
}.

(** The world right after the constructor [GPRS(...)] ran. *)
Definition new_GPRS : World :=
  mkWorld false [("_everyTime", VArr [])] None false 0 0 Live [].

Definition M := World -> World.

Definition ret : M := fun w => w.

Definition emit_event (e : event) : M := fun w =>
  mkWorld (inACall w) (notificationCallbacks w) (callee_inACall w) (pending w)
          (listeners w) (sent w) (state w) (log w ++ [e]).

Definition set_state (s : status) : M := fun w =>
  mkWorld (inACall w) (notificationCallbacks w) (callee_inACall w) (pending w)
          (listeners w) (sent w) s (log w).

Definition set_inACall (b : bool) : M := fun w =>
  mkWorld b (notificationCallbacks w) (callee_inACall w) (pending w)
          (listeners w) (sent w) (state w) (log w).

Definition set_callee_inACall (b : bool) : M := fun w =>
  mkWorld (inACall w) (notificationCallbacks w) (Some b) (pending w)
          (listeners w) (sent w) (state w) (log w).

Definition set_notificationCallbacks (n : list (string * jsval)) : M := fun w =>
  mkWorld (inACall w) n (callee_inACall w) (pending w)
          (listeners w) (sent w) (state w) (log w).

Definition set_pending (b : bool) : M := fun w =>
  mkWorld (inACall w) (notificationCallbacks w) (callee_inACall w) b
          (listeners w) (sent w) (state w) (log w).

Definition add_listener : M := fun w =>
  mkWorld (inACall w) (notificationCallbacks w) (callee_inACall w) (pending w)
          (S (listeners w)) (sent w) (state w) (log w).

Definition count_send : M := fun w =>
  mkWorld (inACall w) (notificationCallbacks w) (callee_inACall w) (pending w)
          (listeners w) (S (sent w)) (state w) (log w).

Definition throw (e : exn) : M := set_state (Threw e).

Definition is_live (w : World) : bool :=
  match state w with Live => true | _ => false end.

(** Statement sequencing: an exception skips what follows. *)
Definition seq (a b : M) : M := fun w =>
  let w' := a w in if is_live w' then b w' else w'.

Notation "a ;; b" := (seq a b) (at level 61, right associativity).

(** [l.forEach(body)] *)
Fixpoint forEach {A : Type} (l : list A) (body : A -> M) : M :=
  match l with
  | [] => ret
  | x :: xs => body x ;; forEach xs body
  end.

(** The caller's callback is opaque user code: calling it is logged. *)
Definition user_callback (e : option JsError) (d : jsdata) : M :=
  emit_event (EvCallback e d).

(** ** The Postmaster *)

Section Driver.

(** The modem seen through the Postmaster: the reply that resolves the
    [n]-th request.  By the Postmaster's contract every [send] resolves,
    by a match or by a timeout-kind error. *)
Variable modem : nat -> request -> reply.

(** Modelled from the spec: [postmaster.send] ([postmaster.js] is not among
    the sources).  The request is written and arms the single pending slot;
    the slot is cleared when the request resolves, and the callback then
    receives the reply. *)
Definition postmaster_send (rq : request) (callback : reply -> M) : M := fun w =>
  let r := modem (sent w) rq in
  (emit_event (EvSend rq) ;; set_pending true ;; count_send ;;
   set_pending false ;; callback r) w.

(** Modelled from the spec: [postmaster.forceClear] clears the pending slot
    without calling anything. *)
Definition postmaster_forceClear : M :=
  emit_event EvForceClear ;; set_pending false.

(** ** _txrx *)

Definition truthy_msg (m : txmsg) : bool :=
  match m with
  | MStr s => negb (String.eqb s EmptyString)
  | MBuf _ => true
  end.

(** [_txrx(message, patience, callback, alternate)].  Under [||] the only
    false-y numbers are 0 and NaN; patience is an integer here.  The
    callback is always supplied, so the logging default is left out. *)
Definition _txrx (message : txmsg) (patience : Z) (callback : reply -> M)
    (alternate : option alternate) : M :=
  let message := if truthy_msg message then message else MStr "AT" in
  let patience := if patience =? 0 then 250 else patience in
  let patience := Z.max patience 100 in
  postmaster_send (mkRequest message patience alternate) callback.

(** ** togglePower *)

(** [togglePower(callback)]: high, 100 ms, low, 1000 ms (1500 ms in the
    later revision), high, 5000 ms, then 'powerToggled' and the callback. *)
Definition togglePower (v : version) (callback : M) : M :=
  emit_event (EvPower true) ;;
  emit_event (EvSetTimeout 100) ;;
  emit_event (EvPower false) ;;
  emit_event (EvSetTimeout (match v with IndexJs => 1000 | Part000 => 1500 end)) ;;
  emit_event (EvPower true) ;;
  emit_event (EvSetTimeout 5000) ;;
  emit_event (EvEmit "powerToggled" None) ;;
  callback.

(** ** _establishContact *)

(** [x || d] on an optional number: [undefined] and [0] give [d].
    Attempt counters and ceilings are integers; the arithmetic on them is
    that of JavaScript as long as they stay below 2^53, where [rep + 1] is
    exact, and their decimal text is what string concatenation gives below
    1e21. *)
Definition or_default (x : option Z) (d : Z) : Z :=
  match x with
  | Some n => if n =? 0 then d else n
  | None => d
  end.

Definition string_of_Z (z : Z) : string := NilZero.string_of_int (Z.to_int z).

Definition NUL : string := String Ascii.zero EmptyString.

(** The double quote character, as a string. *)
Definition dquote : string := String (ascii_of_nat 34) EmptyString.

Definition is_timeout (e : JsError) : bool :=
  match type e with
  | Some t => String.eqb t "timeout"
  | None => false
  end.

Definition contact_alternate (v : version) : alternate :=
  match v with
  | IndexJs => mkAlt ["AT"; "\x00AT"; NUL ++ "AT"] [Some "OK"] true
  | Part000 => mkAlt ["AT"; "\x00AT"; NUL ++ "AT"; "OK"] [Some "OK"] true
  end.

Definition contact_failed_message (reps : Z) : string :=
  "Failed to connect to module because it could not be powered on and contacted after "
    ++ string_of_Z reps ++ " attempt(s)".

(** [_establishContact(callback, rep, reps)].  The recursion of the source
    is not bounded in the later revision; [fuel] bounds the number of
    nested calls that are unfolded, and running out of it is recorded as
    [NoFuel]. *)
Fixpoint _establishContact (v : version) (fuel : nat)
    (callback : option JsError -> jsdata -> M) (rep reps : option Z)
    {struct fuel} : M :=
  match fuel with
  | O => set_state NoFuel
  | S fuel' =>
    let rep := or_default rep 0 in
    let reps := or_default reps 5 in
    let patience := 1000 in
    let probe :=
      _txrx (MStr "AT") patience
        (fun r (* checkIfWeContacted *) =>
           match err r with
           | Some e =>
               if is_timeout e then
                 togglePower v
                   ((* tryAgainAfterToggle *)
                    _establishContact v fuel' callback (Some (rep + 1)) (Some reps))
               else callback (Some e) DFalse
           | None =>
               emit_event (EvEmit "ready" None) ;;
               callback None (DFrames (data r))
           end)
        (Some (contact_alternate v)) in
    match v with
    | IndexJs =>
        if rep >? reps
        then callback (Some (mkError None (contact_failed_message reps))) DFalse
        else probe
    | Part000 => probe
    end
  end.

(** [use(hardware, ..., callback)]: construct, then [_establishContact(callback)]. *)
Definition use (v : version) (fuel : nat) (callback : option JsError -> jsdata -> M) : World :=
  _establishContact v fuel callback None None new_GPRS.

(** ** chain *)

(** [replies[0][replies[0].length - 1]]: reading [length] of [null] or
    [undefined] throws; on [false] it is [undefined], and so is the
    element then read; on an empty array element [-1] is [undefined]. *)
Definition last_expected (e : expected) : exn + option string :=
  match e with
  | ENull => inl (TypeError "Cannot read property 'length' of null")
  | EUndefined => inl (TypeError "Cannot read property 'length' of undefined")
  | EFalse => inr None
  | EArr frames => inr (nth_error frames (Nat.pred (List.length frames)))
  end.

Definition truthy_expected (e : expected) : bool :=
  match e with
  | EArr _ => true
  | _ => false
  end.

(** [candidates.indexOf(x) > -1], where [x] may be [undefined]. *)
Definition indexOf_found (candidates : list string) (x : option string) : bool :=
  match x with
  | Some s => existsb (String.eqb s) candidates
  | None => false
  end.

(** The [for] loop of [intermediate], from index [i] on. *)
Fixpoint intermediate_loop (reply0 : list string) (data : list string)
    (i : nat) (correct : bool) : bool :=
  match data with
  | [] => correct
  | d :: rest =>
      intermediate_loop reply0 rest (S i)
        (correct && indexOf_found [d; "\x00" ++ d; NUL ++ d] (nth_error reply0 i))
  end.

(** The value [correct] that [intermediate(err, data)] emits. *)
Definition intermediate_correct (reply0 : expected) (r : reply) : bool :=
  let correct := match err r with None => true | Some _ => false end in
  match reply0 with
  | EArr frames => intermediate_loop frames (data r) 0 correct
  | _ => correct
  end.

Definition lengths_message (v : version) : string :=
  match v with
  | IndexJs => "array lengths must match"
  | Part000 => "Array lengths must match"
  end.

Definition chain_broke_message (v : version) (m : string) : string :=
  match v with
  | IndexJs => "chain broke on " ++ m
  | Part000 => "Chain broke on " ++ m
  end.

(** [replies[0]] and [patiences[0]]; out of range they are [undefined]. *)
Definition first_expected (replies : list expected) : expected :=
  match replies with
  | [] => EUndefined
  | r :: _ => r
  end.

Definition first_patience (patiences : list Z) : Z :=
  match patiences with
  | [] => 0 (* undefined: [_txrx] replaces it, as it does 0, by its default *)
  | p :: _ => p
  end.

(** [chain(messages, patiences, replies, callback)] ([_chain] in the later
    revision).  The listener that [once('intermediate', ...)] registers
    right after [_txrx] returned is what the [emit] in [intermediate]
    calls; it is written in line after the emit. *)
Fixpoint chain (v : version) (messages : list string) (patiences : list Z)
    (replies : list expected) (callback : option JsError -> jsdata -> M)
    {struct messages} : M :=
  if negb (List.length messages =? List.length patiences)%nat
     || negb (List.length messages =? List.length replies)%nat
  then callback (Some (mkError None (lengths_message v))) DFalse
  else
    match messages with
    | [] => ret
    | m :: rest =>
        match last_expected (first_expected replies) with
        | inl e => throw e
        | inr tok =>
            let alt := Some (mkAlt [m] [tok] false) in
            match rest with
            | [] =>
                _txrx (MStr m) (first_patience patiences)
                  (fun r => callback (err r) (DFrames (data r))) alt
            | _ :: _ =>
                _txrx (MStr m) (first_patience patiences)
                  (fun r (* intermediate *) =>
                     let correct := intermediate_correct (first_expected replies) r in
                     emit_event (EvEmit "intermediate" (Some correct)) ;;
                     if correct then
                       chain v rest (tl patiences) (tl replies) callback
                     else
                       postmaster_forceClear ;;
                       callback (Some (mkError None (chain_broke_message v m))) DFalse)
                  alt
            end
        end
    end.

(** ** Voice calls *)

(** [answerCall(callback)] *)
Definition answerCall (callback : option JsError -> jsdata -> M) : M :=
  _txrx (MStr "ATA") 10000
    (fun r =>
       (match err r with None => set_inACall true | Some _ => ret end) ;;
       callback (err r) (DFrames (data r)))
    None.

(** [dial(number, callback)].  The callback handed to [_txrx] is a plain
    [function]: its [this] is whatever the Postmaster calls it on, and the
    Postmaster holds no reference to the GPRS object; the assignment
    [this.inACall = false] lands on that other object. *)
Definition dial (number : string) (callback : option JsError -> jsdata -> M) : M := fun w =>
  if inACall w then
    callback (Some (mkError None "Currently in a call")) (DFrames []) w
  else if String.eqb number EmptyString || (String.length number <? 10)%nat then
    callback (Some (mkError None "Number must be at least 10 digits")) (DFrames []) w
  else
    (set_inACall true ;;
     _txrx (MStr ("ATD" ++ number ++ ";")) (1000 * 60 * 60 * 24 * 365)
       (fun r =>
          set_callee_inACall false ;;
          callback (err r) (DFrames (data r)))
       None) w.

(** [hangUp(callback)]: here the callback writes through [self]. *)
Definition hangUp (callback : option JsError -> jsdata -> M) : M :=
  _txrx (MStr "ATH") 100000
    (fun r =>
       set_inACall false ;;
       callback (err r) (DFrames (data r)))
    None.

(** ** SMS *)

(** [readSMS(index, mode, callback)] *)
Definition readSMS (index mode : Z) (callback : option JsError -> jsdata -> M) : M :=
  _txrx (MStr ("AT+CMGR=" ++ string_of_Z index ++ "," ++ string_of_Z mode)) 10000
    (fun r => callback (err r) (DFrames (data r))) None.

(** The white space that [parseInt] skips, among the code units below
    256: TAB, LF, VT, FF, CR, the space and the no-break space. *)
Definition is_space (c : ascii) : bool :=
  let n := nat_of_ascii c in
  ((n =? 32) || ((9 <=? n) && (n <=? 13)) || (n =? 160))%nat.

Fixpoint skip_spaces (s : string) : string :=
  match s with
  | String c s' => if is_space c then skip_spaces s' else s
  | EmptyString => s
  end.

Definition digit_of (c : ascii) : option Z :=
  let n := nat_of_ascii c in
  if ((48 <=? n) && (n <=? 57))%nat then Some (Z.of_nat n - 48) else None.

(** The longest run of decimal digits at the head of [s], read as a
    number; [None] when there is no digit. *)
Fixpoint leading_digits (s : string) (acc : option Z) : option Z :=
  match s with
  | String c s' =>
      match digit_of c with
      | Some d =>
          leading_digits s' (Some (10 * match acc with Some a => a | None => 0 end + d))
      | None => acc
      end
  | EmptyString => acc
  end.

(** The largest magnitude up to which a double holds every integer. *)
Definition max_exact : Z := 9007199254740992.

(** The number read from a sign and the value [n] of a run of digits. *)
Definition js_integer (negative : bool) (n : Z) : jsnum :=
  if negative && (n =? 0) then NegZero
  else
    let z := if negative then - n else n in
    if Z.abs z <=? max_exact then Num z else Approx z.

(** [parseInt(s, 10)] *)
Definition parseInt (s : string) : jsnum :=
  let s := skip_spaces s in
  let '(negative, s) :=
    match s with
    | String "-" s' => (true, s')
    | String "+" s' => (false, s')
    | _ => (false, s)
    end in
  match leading_digits s None with
  | Some n => js_integer negative n
  | None => NaN
  end.

(** [s.slice(n)] for [n >= 0] *)
Fixpoint slice (n : nat) (s : string) : string :=
  match n, s with
  | O, _ => s
  | S n', String _ s' => slice n' s'
  | S _, EmptyString => EmptyString
  end.

(** [a[i] == s] for an element that may be [undefined] *)
Definition elem_eq (a : list string) (i : nat) (s : string) : bool :=
  match nth_error a i with
  | Some x => String.eqb x s
  | None => false
  end.

Definition sms_guard (v : version) (number : string) : bool :=
  match v with
  | IndexJs => String.eqb number EmptyString
  | Part000 => String.eqb number EmptyString || (String.length number <? 10)%nat
  end.

(** [sendSMS(number, message, callback)] *)
Definition sendSMS (v : version) (number message : string)
    (callback : option JsError -> jsdata -> M) : M :=
  if sms_guard v number then
    callback (Some (mkError None "Did not specify a 10+ digit number")) DNull
  else
    let message := if String.eqb message EmptyString then "text from a Tessel" else message in
    let commands := ["AT+CMGF=1"; "AT+CMGS=" ++ dquote ++ number ++ dquote; message] in
    let patiences := [2000; 5000; 5000] in
    let replies := [EArr ["AT+CMGF=1"; "OK"];
                    EArr ["AT+CMGS=" ++ dquote ++ number ++ dquote; "> "];
                    EArr [message; "> "]] in
    chain v commands patiences replies
      (fun errr chained (* the outer data *) =>
         (* manually check the last one *)
         let correct :=
           match errr, chained with
           | None, DFrames fs => elem_eq fs 0 message && elem_eq fs 1 "> "
           | _, _ => false
           end in
         let id := Num (-1) in
         let err0 := match errr with
                     | Some e => Some e
                     | None => Some (mkError None "Unable to send SMS")
                     end in
         if correct then
           _txrx (MBuf [0x1a]) 10000
             (fun r (* its parameters shadow the outer err and data *) =>
                match data r with
                | [] => throw (TypeError "Cannot read property 'indexOf' of undefined")
                | d0 :: _ =>
                    if String.prefix "+CMGS: " d0 && elem_eq (data r) 1 "OK" then
                      (* message sent! *)
                      callback None (DIds [parseInt (slice 7 d0)])
                    else callback (err r) (DIds [id])
                end)
             (Some (mkAlt ["+CMGS: "; "ERROR"] [Some "OK"; Some "ERROR"] true))
         else callback err0 (DIds [id])).

End Driver.

(** ** Notifications *)

(** [Object.keys(o)]: the keys in the order they were first assigned.
    (JavaScript lists keys that are array indices first; the statements
    below do not depend on the order in which header handlers run.) *)
Definition Object_keys (o : list (string * jsval)) : list string := map fst o.

(** [o[k]] *)
Fixpoint get_property (k : string) (o : list (string * jsval)) : option jsval :=
  match o with
  | [] => None
  | (k', x) :: o' => if String.eqb k k' then Some x else get_property k o'
  end.

(** [o[k] = x]: an existing key keeps its place, a new key goes last. *)
Fixpoint set_property (k : string) (x : jsval) (o : list (string * jsval))
    : list (string * jsval) :=
  match o with
  | [] => [(k, x)]
  | (k', y) :: o' =>
      if String.eqb k k' then (k', x) :: o' else (k', y) :: set_property k x o'
  end.

(** The listener that [notify] registers on 'unsolicited'. *)
Definition unsolicited_listener (data : string) : M := fun w =>
  ((* on selected unsolicited events *)
   forEach (Object_keys (notificationCallbacks w))
     (fun key w' =>
        if negb (String.eqb data EmptyString) && String.prefix key data then
          match get_property key (notificationCallbacks w') with
          | Some (VFun h) => emit_event (EvInvoke h data) w'
          | _ => throw (TypeError "notificationCallbacks[key] is not a function") w'
          end
        else w') ;;
   (* on every unsolicited event *)
   (fun w' =>
      match get_property "_everyTime" (notificationCallbacks w') with
      | Some (VArr fs) => forEach fs (fun func => emit_event (EvInvoke func data)) w'
      | _ => throw (TypeError "notificationCallbacks._everyTime.forEach is not a function") w'
      end)) w.

(** [notify()] *)
Definition notify : M := emit_event EvSubscribe ;; add_listener.

(** [notifyOn(pairs, everyTime)]; [pairs] lists the properties of the
    object in key order, [everyTime] is [None] when omitted. *)
Definition notifyOn (pairs : list (string * handler)) (everyTime : option (list handler)) : M :=
  (fun w =>
     if (List.length (Object_keys (notificationCallbacks w)) <? 2)%nat
     then (* this is the first time this was called *) notify w
     else w) ;;
  forEach pairs
    (fun p w =>
       set_notificationCallbacks
         (set_property (fst p) (VFun (snd p)) (notificationCallbacks w)) w) ;;
  match everyTime with
  | Some fs =>
      forEach fs
        (fun newKey w =>
           match get_property "_everyTime" (notificationCallbacks w) with
           | Some (VArr old) =>
               set_notificationCallbacks
                 (set_property "_everyTime" (VArr (old ++ [newKey]))
                    (notificationCallbacks w)) w
           | _ => throw (TypeError "notificationCallbacks._everyTime.push is not a function") w
           end)
  | None => ret
  end.

(** Modelled from the spec: the Postmaster republishes a frame that matches
    no pending request on 'unsolicited' ([postmaster.js] is not among the
    sources); every listener subscribed there is called with it. *)
Definition postmaster_unsolicited (data : string) : M := fun w =>
  forEach (repeat tt (listeners w)) (fun _ => unsolicited_listener data) w.

(** ** Observations on a run *)

(** The requests handed to the Postmaster, in order. *)
Fixpoint requests (l : list event) : list request :=
  match l with
  | [] => []
  | EvSend rq :: l' => rq :: requests l'
  | _ :: l' => requests l'
  end.

(** The calls of the caller's callback, in order. *)
Fixpoint callbacks (l : list event) : list (option JsError * jsdata) :=
  match l with
  | [] => []
  | EvCallback e d :: l' => (e, d) :: callbacks l'
  | _ :: l' => callbacks l'
  end.

(** A power cycle lowers the power line once. *)
Definition is_power_low (e : event) : bool :=
  match e with
  | EvPower false => true
  | _ => false
  end.

Definition power_cycles (l : list event) : nat :=
  List.length (filter is_power_low l).



(** The request [_txrx] builds from its arguments. *)
Definition txrx_request (message : txmsg) (patience : Z)
    (alternate : option alternate) : request :=
  mkRequest (if truthy_msg message then message else MStr "AT")
            (Z.max (if patience =? 0 then 250 else patience) 100)
            alternate.

(** The world in which the callback of a request starts: the request was
    written and has resolved. *)
Definition after_send (rq : request) (w : World) : World :=
  set_pending false (count_send (set_pending true (emit_event (EvSend rq) w))).

(** The request that step [j] of a chain sends. *)
Definition step_request (messages : list string) (patiences : list Z)
    (replies : list expected) (j : nat) : request :=
  let m := nth j messages EmptyString in
  txrx_request (MStr m) (nth j patiences 0)
    (Some (mkAlt [m]
             [match last_expected (nth j replies EUndefined) with
              | inr tok => tok
              | inl _ => None
              end] false)).

(** The probe of [_establishContact] and what one power cycle logs. *)
Definition probe_request (v : version) : request :=
  mkRequest (MStr "AT") 1000 (Some (contact_alternate v)).

Definition toggle_events (v : version) : list event :=
  [EvPower true; EvSetTimeout 100; EvPower false;
   EvSetTimeout (match v with IndexJs => 1000 | Part000 => 1500 end);
   EvPower true; EvSetTimeout 5000; EvEmit "powerToggled" None].

(** What one failed probe logs: the probe and the power cycle that
    follows its timeout. *)
Definition probe_cycle (v : version) : list event :=
  EvSend (probe_request v) :: toggle_events v.

(** The world with further events logged. *)
Definition logged (l : list event) : M := fun w =>
  mkWorld (inACall w) (notificationCallbacks w) (callee_inACall w) (pending w)
          (listeners w) (sent w) (state w) (log w ++ l).

(** A modem none of whose replies is anything but a timeout. *)
Definition always_timeout (modem : nat -> request -> reply) : Prop :=
  forall n rq, exists e, err (modem n rq) = Some e /\ is_timeout e = true.

(** A modem that is powered off: every request times out with nothing
    collected. *)
Definition silent : nat -> request -> reply :=
  fun _ _ => mkReply (Some (mkError (Some "timeout") "no reply")) [].

(** A modem that answers every request with its echo and OK. *)
Definition obliging : nat -> request -> reply :=
  fun _ rq =>
    match rq_message rq with
    | MStr s => mkReply None [s; "OK"]
    | MBuf _ => mkReply None ["OK"]
    end.



(** A modem that is obliging, except that it answers request number [k]
    with its echo and ERROR. *)
Definition error_at (k : nat) : nat -> request -> reply :=
  fun n rq =>
    if (n =? k)%nat then
      match rq_message rq with
      | MStr s => mkReply None [s; "ERROR"]
      | MBuf _ => mkReply None ["ERROR"]
      end
    else obliging n rq.

(** The simulated transport of the SMS round trip: the mode-set command is
    echoed with OK, the recipient and the body are echoed with a prompt,
    and the terminating byte 0x1A is answered by the confirmation frame
    and OK. *)
Definition sms_transport : nat -> request -> reply :=
  fun _ rq =>
    match rq_message rq with
    | MStr s =>
        if String.eqb s "AT+CMGF=1" then mkReply None [s; "OK"]
        else mkReply None [s; "> "]
    | MBuf _ => mkReply None ["+CMGS: 7"; "OK"]
    end.

(** The same transport, except that the first echo arrives behind a stray
    NUL byte, as it does right after the modem powers on. *)
Definition sms_transport_stray : nat -> request -> reply :=
  fun n rq =>
    match n, rq_message rq with
    | O, MStr s => mkReply None [NUL ++ s; "OK"]
    | _, _ => sms_transport n rq
    end.

(** One received frame against its expected token, as [intermediate]
    compares them: the candidates are built from the received frame. *)
Definition frame_matches (received expected_token : string) : Prop :=
  expected_token = received
  \/ expected_token = "\x00" ++ received
  \/ expected_token = NUL ++ received.

(** The handlers of the header entries whose key heads the frame. *)
Fixpoint header_handlers (data : string) (o : list (string * jsval)) : list handler :=
  match o with
  | [] => []
  | (k, VFun h) :: o' =>
      if String.prefix k data then h :: header_handlers data o'
      else header_handlers data o'
  | (_, VArr _) :: o' => header_handlers data o'
  end.


(** The registry as [notifyOn] keeps it when no header is registered under
    the reserved key: distinct keys, an array under [_everyTime], and a
    function under every other key. *)
Definition registry_ok (o : list (string * jsval)) : Prop :=
  NoDup (Object_keys o)
  /\ (exists fs, get_property "_everyTime" o = Some (VArr fs))
  /\ (forall k x, In (k, x) o -> k <> "_everyTime" -> exists h, x = VFun h).

(** A GPRS object on which two headers and two wildcard handlers were
    registered in one call. *)
Definition registered : World :=
  notifyOn [("+CMT", 3%nat); ("RING", 4%nat)] (Some [1%nat; 2%nat]) new_GPRS.

(** ** Further observations and modems *)

(** The world after [k] probes that timed out, each followed by its power
    cycle. *)
Fixpoint after_cycles (v : version) (k : nat) (w : World) : World :=
  match k with
  | O => w
  | S k' =>
      after_cycles v k' (logged (toggle_events v) (after_send (probe_request v) w))
  end.

(** How often the signal [name] was emitted. *)
Fixpoint emitted (name : string) (l : list event) : nat :=
  match l with
  | [] => O
  | EvEmit n _ :: l' => if String.eqb n name then S (emitted name l') else emitted name l'
  | _ :: l' => emitted name l'
  end.

(** A modem that is powered off during its first [k] requests and
    obliging from then on. *)
Definition wakes_after (k : nat) : nat -> request -> reply :=
  fun n rq => if (n <? k)%nat then silent n rq else obliging n rq.

(** A modem that is powered off during its first [k] requests and then
    reports an error of its own. *)
Definition fails_after (k : nat) : nat -> request -> reply :=
  fun n rq =>
    if (n <? k)%nat then silent n rq
    else mkReply (Some (mkError None "ERROR")) ["ERROR"].

(** The transport of an SMS exchange that goes well up to the terminating
    byte: the mode-set command is echoed with OK, the recipient and the
    body are echoed with a prompt, and the fourth request is resolved by
    [final]. *)
Definition sms_script (final : reply) : nat -> request -> reply :=
  fun n rq =>
    let echo (status : string) :=
      match rq_message rq with
      | MStr s => mkReply None [s; status]
      | MBuf _ => mkReply None [status]
      end in
    match n with
    | O => echo "OK"
    | S O => echo "> "
    | S (S O) => echo "> "
    | _ => final
    end.

(** A series of calls of [notifyOn]. *)
Definition register_all (calls : list (list (string * handler) * option (list handler))) : M :=
  forEach calls (fun c => notifyOn (fst c) (snd c)).

(** The body that is sent: the default text stands in for an empty one. *)
Definition sms_body (message : string) : string :=
  if String.eqb message EmptyString then "text from a Tessel" else message.


(** The registry after the loop over [pairs]. *)
Definition assign_all (pairs : list (string * handler)) (o : list (string * jsval))
    : list (string * jsval) :=
  fold_left (fun o p => set_property (fst p) (VFun (snd p)) o) pairs o.


(** The level the power line was last driven to, [start] when the log
    does not drive it. *)
Fixpoint power_level (start : option bool) (l : list event) : option bool :=
  match l with
  | [] => start
  | EvPower b :: l' => power_level (Some b) l'
  | _ :: l' => power_level start l'
  end.

(** The milliseconds spent in timers. *)
Fixpoint waited (l : list event) : Z :=
  match l with
  | [] => 0
  | EvSetTimeout ms :: l' => ms + waited l'
  | _ :: l' => waited l'
  end.

(** * Properties *)

(** ** Worlds and logs *)

Lemma is_live_state w : is_live w = true <-> state w = Live.
Proof. unfold is_live. destruct (state w); split; congruence. Qed.

Ltac live_world w H :=
  let st := fresh "st" in
  destruct w as [? ? ? ? ? ? st ?];
  apply is_live_state in H; simpl in H; subst st.

Lemma seq_live (a b : M) w : is_live (a w) = true -> (a ;; b) w = b (a w).
Proof. intros H. unfold seq. now rewrite H. Qed.

Lemma logged_nil w : logged [] w = w.
Proof. destruct w. unfold logged; simpl. now rewrite app_nil_r. Qed.

Lemma logged_logged l l' w : logged l' (logged l w) = logged (l ++ l') w.
Proof. unfold logged; simpl. now rewrite app_assoc. Qed.

Lemma emit_event_logged e w : emit_event e w = logged [e] w.
Proof. reflexivity. Qed.

Lemma requests_app l l' : requests (l ++ l') = (requests l ++ requests l')%list.
Proof.
  induction l as [|e l IH]; [reflexivity|].
  destruct e; simpl; rewrite IH; reflexivity.
Qed.

Lemma callbacks_app l l' : callbacks (l ++ l') = (callbacks l ++ callbacks l')%list.
Proof.
  induction l as [|e l IH]; [reflexivity|].
  destruct e; simpl; rewrite IH; reflexivity.
Qed.

Lemma power_cycles_app l l' :
  power_cycles (l ++ l') = (power_cycles l + power_cycles l')%nat.
Proof. unfold power_cycles. now rewrite filter_app, length_app. Qed.

(** ** The Postmaster and _txrx *)

Lemma postmaster_send_live modem rq callback w :
  is_live w = true ->
  postmaster_send modem rq callback w = callback (modem (sent w) rq) (after_send rq w).
Proof. intros H. live_world w H. reflexivity. Qed.

Lemma txrx_delegates (modem : nat -> request -> reply) message patience callback alternate :
  _txrx modem message patience callback alternate =
  postmaster_send modem (txrx_request message patience alternate) callback.
Proof. reflexivity. Qed.

(** Whatever the caller asks for, the request carries at least the floor. *)
Lemma txrx_patience_at_least_floor message patience alternate :
  100 <= rq_patience (txrx_request message patience alternate).
Proof. unfold txrx_request; simpl. lia. Qed.

(** C4, as the code has it: a patience below the floor of 100 is raised to
    100 before the request is handed to the Postmaster, except a patience
    of 0, which is false-y and is first replaced by the default 250. *)
Theorem txrx_patience_floor :
  forall (modem : nat -> request -> reply) message patience callback alternate,
    patience < 100 ->
    _txrx modem message patience callback alternate =
    postmaster_send modem
      (mkRequest (if truthy_msg message then message else MStr "AT")
                 (if patience =? 0 then 250 else 100)
                 alternate)
      callback.
Proof.
  intros modem message patience callback alternate Hlow.
  rewrite txrx_delegates. unfold txrx_request.
  destruct (Z.eqb_spec patience 0) as [-> | Hnz].
  - reflexivity.
  - rewrite Z.max_r by lia. reflexivity.
Qed.

Lemma txrx_patience_floor_witness :
  50 < 100 /\
  _txrx silent (MStr "AT") 50 (fun _ => ret) None =
  postmaster_send silent (mkRequest (MStr "AT") 100 None) (fun _ => ret).
Proof.
  split; [lia | apply (txrx_patience_floor silent (MStr "AT") 50); lia].
Defined.

(** C4 as stated fails at patience 0: it is below the floor, and the
    request that reaches the Postmaster carries 250, not the floor. *)
Lemma txrx_patience_zero_not_floor :
  0 < 100 /\
  requests (log (_txrx silent (MStr "AT") 0 (fun _ => ret) None new_GPRS)) =
    [mkRequest (MStr "AT") 250 None] /\
  250 <> 100.
Proof. split; [lia | split; [reflexivity | lia]]. Qed.

(** ** Contact establishment *)

Lemma togglePower_live v k w :
  is_live w = true ->
  togglePower v k w = k (logged (toggle_events v) w).
Proof.
  intros H. live_world w H.
  unfold togglePower, seq, logged, toggle_events; cbn.
  unfold emit_event; simpl. rewrite <- !app_assoc. reflexivity.
Qed.

Lemma establishContact_defaults modem v fuel callback :
  _establishContact modem v fuel callback None None =
  _establishContact modem v fuel callback (Some 0) (Some 5).
Proof. destruct fuel; reflexivity. Qed.

Lemma or_default_rep rep : or_default (Some rep) 0 = rep.
Proof. unfold or_default. destruct (Z.eqb_spec rep 0); congruence. Qed.

Lemma or_default_reps reps d : reps <> 0 -> or_default (Some reps) d = reps.
Proof. intros H. unfold or_default. destruct (Z.eqb_spec reps 0); congruence. Qed.

(** A probe that times out is followed by one power cycle and by the
    nested call with the attempt counter incremented. *)
Lemma establishContact_retry modem v fuel callback rep reps w :
  always_timeout modem ->
  is_live w = true ->
  (v = IndexJs -> or_default rep 0 <= or_default reps 5) ->
  _establishContact modem v (S fuel) callback rep reps w =
  _establishContact modem v fuel callback
    (Some (or_default rep 0 + 1)) (Some (or_default reps 5))
    (logged (toggle_events v) (after_send (probe_request v) w)).
Proof.
  intros Hm Hlive Hle.
  destruct (Hm (sent w) (probe_request v)) as (e & He & Hto).
  cbn [_establishContact].
  assert (Hgt : v = IndexJs -> (or_default rep 0 >? or_default reps 5) = false).
  { intros Hv. specialize (Hle Hv). lia. }
  assert (Hprobe : forall k,
    _txrx modem (MStr "AT") 1000
      (fun r => match err r with
         | Some e0 => if is_timeout e0 then togglePower v k
                      else callback (Some e0) DFalse
         | None => emit_event (EvEmit "ready" None) ;; callback None (DFrames (data r))
         end)
      (Some (contact_alternate v)) w
     = k (logged (toggle_events v) (after_send (probe_request v) w))).
  { intros k. rewrite txrx_delegates, postmaster_send_live by assumption.
    change (txrx_request (MStr "AT") 1000 (Some (contact_alternate v)))
      with (probe_request v).
    cbv beta. rewrite He, Hto. apply togglePower_live. exact Hlive. }
  destruct v.
  - rewrite Hgt by reflexivity. apply Hprobe.
  - apply Hprobe.
Qed.

(** The earlier revision gives up once the counter exceeds the ceiling:
    from attempt [rep] that takes [reps + 1 - rep] probes and as many
    power cycles. *)
Lemma establishContact_index_js_gives_up modem callback :
  always_timeout modem ->
  forall n rep reps fuel w,
    is_live w = true ->
    reps <> 0 ->
    Z.of_nat n = reps + 1 - rep ->
    (n < fuel)%nat ->
    exists w0,
      _establishContact modem IndexJs fuel callback (Some rep) (Some reps) w =
      callback (Some (mkError None (contact_failed_message reps))) DFalse w0
      /\ is_live w0 = true
      /\ log w0 = (log w ++ List.concat (repeat (probe_cycle IndexJs) n))%list.
Proof.
  intros Hm. induction n as [|n IH]; intros rep reps fuel w Hlive Hreps Hn Hfuel.
  - destruct fuel as [|fuel]; [lia|].
    exists w. cbn [_establishContact].
    rewrite or_default_rep, (or_default_reps reps 5 Hreps).
    replace (rep >? reps) with true by lia.
    split; [reflexivity | split; [assumption | ]].
    simpl. now rewrite app_nil_r.
  - destruct fuel as [|fuel]; [lia|].
    rewrite establishContact_retry; try assumption.
    2:{ intros _. rewrite or_default_rep, (or_default_reps reps 5 Hreps). lia. }
    rewrite or_default_rep, (or_default_reps reps 5 Hreps).
    destruct (IH (rep + 1) reps fuel
                (logged (toggle_events IndexJs) (after_send (probe_request IndexJs) w)))
      as (w0 & Hrun & Hl0 & Hlog); try assumption; try lia.
    exists w0. split; [exact Hrun | split; [exact Hl0 | ]].
    rewrite Hlog. cbn [repeat List.concat].
    unfold probe_cycle at 2. simpl. rewrite <- !app_assoc. reflexivity.
Qed.

(** The later revision never looks at the ceiling: however far the nested
    calls are unfolded, the run is still probing and cycling the power. *)
Lemma establishContact_part000_never_gives_up modem callback :
  always_timeout modem ->
  forall fuel rep reps w,
    is_live w = true ->
    let w' := _establishContact modem Part000 fuel callback rep reps w in
    state w' = NoFuel
    /\ log w' = (log w ++ List.concat (repeat (probe_cycle Part000) fuel))%list.
Proof.
  intros Hm. induction fuel as [|fuel IH]; intros rep reps w Hlive; cbv zeta.
  - simpl. split; [reflexivity | now rewrite app_nil_r].
  - rewrite establishContact_retry; try assumption; try discriminate.
    destruct (IH (Some (or_default rep 0 + 1)) (Some (or_default reps 5))
               (logged (toggle_events Part000) (after_send (probe_request Part000) w)))
      as (Hst & Hlog); [assumption|].
    split; [exact Hst|].
    rewrite Hlog. cbn [repeat List.concat]. unfold probe_cycle at 2. simpl.
    rewrite <- !app_assoc. reflexivity.
Qed.

Lemma power_cycles_probe_cycles v n :
  power_cycles (List.concat (repeat (probe_cycle v) n)) = n.
Proof.
  induction n as [|n IH]; [reflexivity|].
  cbn [repeat List.concat]. rewrite power_cycles_app, IH. reflexivity.
Qed.

Lemma callbacks_probe_cycles v n :
  callbacks (List.concat (repeat (probe_cycle v) n)) = [].
Proof.
  induction n as [|n IH]; [reflexivity|].
  cbn [repeat List.concat]. rewrite callbacks_app, IH. reflexivity.
Qed.

Lemma silent_always_timeout : always_timeout silent.
Proof. intros n rq. eexists; split; reflexivity. Qed.

(** C1, at a failing input: [use] with the default ceiling of 5 on a modem
    that stays silent.  The earlier revision tests [rep > reps] with [rep]
    counted from 0, so it probes and cycles the power 6 times before it
    reports that it failed "after 5 attempt(s)"; once it has reported it
    does nothing more, however much further the run is unfolded.  The
    later revision has no test at all: after any number of nested calls
    it has cycled the power that many times and has not called back. *)
Theorem establishContact_silent_six_cycles :
  (forall extra,
     let w := use silent IndexJs (7 + extra) user_callback in
     power_cycles (log w) = 6%nat
     /\ requests (log w) = repeat (probe_request IndexJs) 6
     /\ callbacks (log w) =
          [(Some (mkError None
              "Failed to connect to module because it could not be powered on and contacted after 5 attempt(s)"),
            DFalse)]
     /\ state w = Live)
  /\ (forall fuel,
        let w := use silent Part000 fuel user_callback in
        power_cycles (log w) = fuel
        /\ callbacks (log w) = []
        /\ state w = NoFuel).
Proof.
  split.
  - intros extra. cbv zeta. unfold use.
    rewrite establishContact_defaults.
    destruct (establishContact_index_js_gives_up silent user_callback
                silent_always_timeout 6 0 5 (7 + extra)%nat new_GPRS)
      as (w0 & Hrun & Hlive & Hlog); try reflexivity; try lia.
    rewrite Hrun. apply is_live_state in Hlive.
    unfold user_callback.
    change (log (emit_event ?e w0)) with (log w0 ++ [e])%list.
    change (state (emit_event ?e w0)) with (state w0).
    rewrite Hlog.
    repeat split; try reflexivity. exact Hlive.
  - intros fuel. cbv zeta. unfold use.
    destruct (establishContact_part000_never_gives_up silent user_callback
                silent_always_timeout fuel None None new_GPRS) as (Hst & Hlog);
      [reflexivity|].
    change (log new_GPRS) with (@nil event) in Hlog. cbn [app] in Hlog.
    rewrite Hlog, power_cycles_probe_cycles, callbacks_probe_cycles.
    repeat split; try reflexivity. exact Hst.
Qed.

(** ** Chains *)

(** What the test inside the loop of [intermediate] accepts. *)
Lemma frame_matches_iff received expected_token :
  indexOf_found [received; "\x00" ++ received; NUL ++ received] (Some expected_token) = true
  <-> frame_matches received expected_token.
Proof.
  unfold indexOf_found, frame_matches; simpl.
  rewrite !orb_true_iff, !String.eqb_eq.
  intuition discriminate.
Qed.

(** C3, at a failing input: the mode-set echo arrives as NUL followed by
    the command.  [intermediate] builds its candidates by prepending to the
    received frame, so the expected [AT+CMGF=1] is not among them and the
    step is invalid; it is the reverse pair, an expected token that itself
    starts with NUL, that validates.  On this reply [sendSMS] breaks its
    chain at the first step. *)
Theorem intermediate_rejects_stray_leading_byte :
  intermediate_correct (EArr ["AT+CMGF=1"; "OK"])
    (mkReply None [NUL ++ "AT+CMGF=1"; "OK"]) = false
  /\ intermediate_correct (EArr [NUL ++ "AT+CMGF=1"; "OK"])
       (mkReply None ["AT+CMGF=1"; "OK"]) = true
  /\ forall v,
       log (sendSMS sms_transport_stray v "1234567890" "hi" user_callback new_GPRS) =
       [EvSend (mkRequest (MStr "AT+CMGF=1") 2000
                  (Some (mkAlt ["AT+CMGF=1"] [Some "OK"] false)));
        EvEmit "intermediate" (Some false);
        EvForceClear;
        EvCallback (Some (mkError None (chain_broke_message v "AT+CMGF=1")))
                   (DIds [Num (-1)])].
Proof.
  split; [reflexivity | split; [reflexivity | ]].
  intros []; reflexivity.
Qed.

Lemma step_request_head m rest patiences replies tok :
  last_expected (first_expected replies) = inr tok ->
  txrx_request (MStr m) (first_patience patiences) (Some (mkAlt [m] [tok] false)) =
  step_request (m :: rest) patiences replies 0.
Proof.
  intros Htok. unfold step_request.
  replace (nth 0 replies EUndefined) with (first_expected replies)
    by (destruct replies; reflexivity).
  replace (nth 0 patiences 0) with (first_patience patiences)
    by (destruct patiences; reflexivity).
  rewrite Htok. reflexivity.
Qed.

(** One intermediate step: the request is sent, [intermediate] emits its
    verdict, and the listener either runs the rest of the chain or clears
    the Postmaster and reports the break. *)
Lemma chain_intermediate_step modem v m m' rest patiences replies callback w tok :
  is_live w = true ->
  List.length (m :: m' :: rest) = List.length patiences ->
  List.length (m :: m' :: rest) = List.length replies ->
  last_expected (first_expected replies) = inr tok ->
  let rq := step_request (m :: m' :: rest) patiences replies 0 in
  let correct := intermediate_correct (first_expected replies) (modem (sent w) rq) in
  let w1 := emit_event (EvEmit "intermediate" (Some correct)) (after_send rq w) in
  chain modem v (m :: m' :: rest) patiences replies callback w =
  if correct
  then chain modem v (m' :: rest) (tl patiences) (tl replies) callback w1
  else callback (Some (mkError None (chain_broke_message v m))) DFalse
         (set_pending false (emit_event EvForceClear w1)).
Proof.
  intros Hlive Hp Hr Htok rq correct w1.
  cbn [chain].
  rewrite <- Hp, <- Hr, Nat.eqb_refl. cbn [negb orb].
  rewrite Htok.
  rewrite txrx_delegates, postmaster_send_live by assumption.
  rewrite (step_request_head m (m' :: rest) patiences replies tok Htok).
  fold rq. cbv beta zeta. fold correct.
  unfold seq at 1.
  change (is_live (emit_event (EvEmit "intermediate" (Some correct)) (after_send rq w)))
    with (is_live w).
  rewrite Hlive. fold w1.
  destruct correct; [reflexivity|].
  unfold postmaster_forceClear, seq.
  change (is_live (emit_event EvForceClear w1)) with (is_live w). rewrite Hlive.
  change (is_live (set_pending false (emit_event EvForceClear w1))) with (is_live w).
  rewrite Hlive. reflexivity.
Qed.

Lemma intermediate_loop_ok frames :
  forall received i,
    (List.length received + i <= List.length frames)%nat ->
    (forall j d e, nth_error received j = Some d -> nth_error frames (i + j) = Some e ->
                   frame_matches d e) ->
    intermediate_loop frames received i true = true.
Proof.
  induction received as [|d received IH]; intros i Hlen Hall; [reflexivity|].
  cbn [intermediate_loop]. cbn [List.length] in Hlen.
  destruct (nth_error frames i) as [e|] eqn:He.
  - assert (Hm : frame_matches d e).
    { apply (Hall 0%nat d e); [reflexivity | now rewrite Nat.add_0_r]. }
    apply frame_matches_iff in Hm. rewrite Hm. cbn [andb].
    apply IH; [lia|].
    intros j d' e' Hd' He'. apply (Hall (S j) d' e'); [exact Hd'|].
    now rewrite Nat.add_succ_r.
  - apply nth_error_None in He. lia.
Qed.



Lemma requests_validated_steps (f : nat -> request) l :
  requests (flat_map (fun j => [EvSend (f j); EvEmit "intermediate" (Some true)]) l)
  = map f l.
Proof. induction l as [|j l IH]; [reflexivity|]. simpl. now rewrite IH. Qed.

(** The run of a chain up to its first invalid intermediate step. *)
Lemma chain_run_to_mismatch modem v callback :
  forall k messages patiences replies m w,
    is_live w = true ->
    List.length messages = List.length patiences ->
    List.length messages = List.length replies ->
    (S k < List.length messages)%nat ->
    nth_error messages k = Some m ->
    (forall j, (j <= k)%nat ->
       exists tok, last_expected (nth j replies EUndefined) = inr tok) ->
    (forall j, (j < k)%nat ->
       intermediate_correct (nth j replies EUndefined)
         (modem (sent w + j)%nat (step_request messages patiences replies j)) = true) ->
    intermediate_correct (nth k replies EUndefined)
      (modem (sent w + k)%nat (step_request messages patiences replies k)) = false ->
    exists w0,
      chain modem v messages patiences replies callback w =
      callback (Some (mkError None (chain_broke_message v m))) DFalse w0
      /\ is_live w0 = true
      /\ pending w0 = false
      /\ log w0 =
           (log w
              ++ flat_map (fun j => [EvSend (step_request messages patiences replies j);
                                     EvEmit "intermediate" (Some true)])
                          (List.seq 0 k)
              ++ [EvSend (step_request messages patiences replies k);
                  EvEmit "intermediate" (Some false);
                  EvForceClear])%list.
Proof.
  induction k as [|k IH];
    intros messages patiences replies m w Hlive Hp Hr Hk Hm Htok Hgood Hbad.
  - destruct messages as [|m0 [|m1 rest]]; cbn [List.length] in Hk; try lia.
    cbn in Hm. injection Hm as ->.
    destruct (Htok 0%nat (Nat.le_refl _)) as (tok & Htok0).
    replace (nth 0 replies EUndefined) with (first_expected replies) in *
      by (destruct replies; reflexivity).
    rewrite Nat.add_0_r in Hbad.
    rewrite (chain_intermediate_step modem v m m1 rest patiences replies callback w tok);
      try assumption.
    cbv zeta. rewrite Hbad.
    eexists. split; [reflexivity|].
    split; [exact Hlive|]. split; [reflexivity|].
    cbn [log set_pending emit_event after_send count_send List.seq flat_map app].
    rewrite <- !app_assoc. reflexivity.
  - destruct messages as [|m0 [|m1 rest]]; cbn [List.length] in Hk; try lia.
    destruct patiences as [|p0 ps]; [discriminate|].
    destruct replies as [|r0 rs]; [discriminate|].
    destruct (Htok 0%nat (Nat.le_0_l _)) as (tok & Htok0).
    cbn [nth] in Htok0.
    rewrite (chain_intermediate_step modem v m0 m1 rest (p0 :: ps) (r0 :: rs) callback w tok);
      try assumption.
    cbv zeta.
    pose proof (Hgood 0%nat (Nat.lt_0_succ _)) as H0.
    rewrite Nat.add_0_r in H0. cbn [nth] in H0.
    cbn [first_expected]. rewrite H0. cbn [tl].
    set (w1 := emit_event (EvEmit "intermediate" (Some true))
                 (after_send (step_request (m0 :: m1 :: rest) (p0 :: ps) (r0 :: rs) 0) w)).
    destruct (IH (m1 :: rest) ps rs m w1) as (w0 & Hrun & Hl0 & Hpend & Hlog).
    + exact Hlive.
    + cbn [List.length] in Hp |- *. lia.
    + cbn [List.length] in Hr |- *. lia.
    + cbn [List.length] in Hk |- *. lia.
    + exact Hm.
    + intros j Hj. apply (Htok (S j)). lia.
    + intros j Hj. specialize (Hgood (S j) ltac:(lia)).
      replace (sent w1 + j)%nat with (sent w + S j)%nat by (cbn; lia).
      exact Hgood.
    + replace (sent w1 + k)%nat with (sent w + S k)%nat by (cbn; lia).
      exact Hbad.
    + exists w0. split; [exact Hrun|]. split; [exact Hl0|]. split; [exact Hpend|].
      rewrite Hlog. subst w1.
      cbn [log set_pending emit_event after_send count_send].
      change (List.seq 0 (S k)) with (0%nat :: List.seq 1 k).
      rewrite <- (seq_shift k 0).
      cbn [flat_map]. rewrite !flat_map_concat_map, map_map.
      rewrite <- !app_assoc. reflexivity.
Qed.


Lemma intermediate_falsy_any_frames :
  forall reply0 received,
    truthy_expected reply0 = false ->
    intermediate_correct reply0 (mkReply None received) = true.
Proof.
  intros reply0 received H.
  destruct reply0; simpl in H; try discriminate; reflexivity.
Qed.

(** C8, at a failing input: a chain whose first expected reply is [null].
    Building the [alternate] argument reads [replies[0].length], which
    throws on [null]: nothing is sent and the callback is never called,
    whether the step is an intermediate one or the last.  With [false] in
    the same place the step does pass on any frames. *)
Theorem chain_null_expected_throws :
  forall modem v,
    let w := chain modem v ["AT"; "ATE1"] [1000; 1000]
               [ENull; EArr ["ATE1"; "OK"]] user_callback new_GPRS in
    let w1 := chain modem v ["AT"] [1000] [ENull] user_callback new_GPRS in
    state w = Threw (TypeError "Cannot read property 'length' of null")
    /\ log w = []
    /\ state w1 = Threw (TypeError "Cannot read property 'length' of null")
    /\ log w1 = []
    /\ forall frames,
         intermediate_correct EFalse (mkReply None frames) = true
         /\ map rq_message
              (requests (log (chain (fun _ _ => mkReply None frames) v ["AT"; "ATE1"]
                                [1000; 1000] [EFalse; EArr ["ATE1"; "OK"]]
                                user_callback new_GPRS)))
            = [MStr "AT"; MStr "ATE1"].
Proof. intros modem v; repeat split. Qed.

(** ** sendSMS *)

(** C5: the SMS round trip.  On the simulated transport
    [sendSMS("1234567890", "hi")] sends the three chained commands and the
    terminating byte, and calls back once, with no error and identifier 7. *)
Theorem sendSMS_round_trip :
  forall v,
    let w := sendSMS sms_transport v "1234567890" "hi" user_callback new_GPRS in
    callbacks (log w) = [(None, DIds [Num 7])]
    /\ map rq_message (requests (log w)) =
         [MStr "AT+CMGF=1"; MStr ("AT+CMGS=" ++ dquote ++ "1234567890" ++ dquote);
          MStr "hi"; MBuf [0x1a]]
    /\ state w = Live.
Proof. intros []; repeat split. Qed.

(** ** Voice calls *)

(** [hangUp] clears the flag of the GPRS object before it calls back. *)
Lemma hangUp_clears_inACall :
  forall modem callback w,
    is_live w = true ->
    exists r w0,
      hangUp modem callback w = callback (err r) (DFrames (data r)) w0
      /\ inACall w0 = false.
Proof.
  intros modem callback w Hlive.
  exists (modem (sent w) (txrx_request (MStr "ATH") 100000 None)).
  eexists. split.
  - unfold hangUp. rewrite txrx_delegates, postmaster_send_live by exact Hlive.
    cbv beta. rewrite seq_live by exact Hlive. reflexivity.
  - reflexivity.
Qed.

(** C9, at a failing input: [dial("1234567890")] outside a call, answered
    by any modem.  The flag is set before the command is written, but the
    callback clears [inACall] on its own [this], not on the GPRS object:
    when the caller's callback has run the GPRS object is still in a call,
    and a second [dial] is refused. *)
Theorem dial_leaves_inACall_set :
  forall modem,
    let w := dial modem "1234567890" user_callback new_GPRS in
    inACall w = true
    /\ callee_inACall w = Some false
    /\ List.length (callbacks (log w)) = 1%nat
    /\ callbacks (log (dial modem "1234567890" user_callback w)) =
         (callbacks (log w)
            ++ [(Some (mkError None "Currently in a call"), DFrames [])])%list.
Proof.
  intros modem. cbv zeta.
  repeat split.
Qed.

(** ** Notifications *)

(** C7, at a failing input: two registrations of wildcard handlers only.
    [notifyOn] takes a registration for the first one when the registry has
    fewer than two keys; wildcard handlers all live under the one key
    [_everyTime], so the second registration subscribes again, and every
    unsolicited frame then reaches each handler twice. *)
Theorem notifyOn_wildcards_subscribe_twice :
  let w := (notifyOn [] (Some [1%nat]) ;; notifyOn [] (Some [2%nat])) new_GPRS in
  listeners w = 2%nat
  /\ log w = [EvSubscribe; EvSubscribe]
  /\ log (postmaster_unsolicited "RING" w) =
       (log w ++ [EvInvoke 1%nat "RING"; EvInvoke 2%nat "RING";
                  EvInvoke 1%nat "RING"; EvInvoke 2%nat "RING"])%list.
Proof. repeat split. Qed.

Lemma get_property_In k x o :
  NoDup (Object_keys o) -> In (k, x) o -> get_property k o = Some x.
Proof.
  induction o as [|[k' y] o IH]; intros Hnd Hin; [contradiction|].
  cbn [Object_keys map fst] in Hnd. inversion Hnd as [|? ? Hnotin Hnd']; subst.
  cbn [get_property]. destruct Hin as [Heq | Hin].
  - injection Heq as -> ->. now rewrite String.eqb_refl.
  - destruct (String.eqb_spec k k') as [-> | _].
    + exfalso. apply Hnotin. unfold Object_keys.
      change k' with (fst (k', x)). now apply in_map.
    + apply IH; assumption.
Qed.

(** The loop over the header keys, on any part [o] of the registry. *)
Lemma header_loop data ncb :
  String.eqb data EmptyString = false ->
  forall o w,
    is_live w = true ->
    notificationCallbacks w = ncb ->
    (forall k x, In (k, x) o -> get_property k ncb = Some x) ->
    (forall k x, In (k, x) o -> String.prefix k data = true -> exists h, x = VFun h) ->
    forEach (Object_keys o)
      (fun key w' =>
         if negb (String.eqb data EmptyString) && String.prefix key data then
           match get_property key (notificationCallbacks w') with
           | Some (VFun h) => emit_event (EvInvoke h data) w'
           | _ => throw (TypeError "notificationCallbacks[key] is not a function") w'
           end
         else w') w
    = logged (map (fun h => EvInvoke h data) (header_handlers data o)) w.
Proof.
  intros Hne.
  set (body := fun (key : string) (w' : World) => _).
  induction o as [|[k x] o IH]; intros w Hlive Hncb Hget Hfun.
  - cbn. now rewrite logged_nil.
  - cbn [Object_keys map fst forEach]. fold (Object_keys o).
    assert (Hget' : forall k0 x0, In (k0, x0) o -> get_property k0 ncb = Some x0).
    { intros k0 x0 H0. apply Hget. now right. }
    assert (Hfun' : forall k0 x0, In (k0, x0) o -> String.prefix k0 data = true ->
                                  exists h, x0 = VFun h).
    { intros k0 x0 H0. apply Hfun. now right. }
    assert (Hbody : body k w =
                    logged (map (fun h => EvInvoke h data) (header_handlers data [(k, x)])) w).
    { unfold body. rewrite Hne. cbn [negb andb header_handlers].
      destruct (String.prefix k data) eqn:Hpre.
      - destruct (Hfun k x (or_introl eq_refl) Hpre) as (h & ->).
        rewrite Hncb, (Hget k (VFun h) (or_introl eq_refl)). reflexivity.
      - destruct x; cbn [map]; now rewrite logged_nil. }
    rewrite seq_live by (rewrite Hbody; exact Hlive).
    rewrite Hbody, IH; try assumption.
    rewrite logged_logged, <- map_app. f_equal. f_equal.
    cbn [header_handlers]. destruct x; [destruct (String.prefix k data)|]; reflexivity.
Qed.

(** On the empty frame the guard [data && ...] skips every key. *)
Lemma header_loop_empty_frame :
  forall keys w,
    is_live w = true ->
    forEach keys
      (fun key w' =>
         if negb (String.eqb EmptyString EmptyString) && String.prefix key EmptyString then
           match get_property key (notificationCallbacks w') with
           | Some (VFun h) => emit_event (EvInvoke h EmptyString) w'
           | _ => throw (TypeError "notificationCallbacks[key] is not a function") w'
           end
         else w') w
    = w.
Proof.
  induction keys as [|k keys IH]; intros w Hlive; [reflexivity|].
  cbn [forEach]. rewrite seq_live by exact Hlive. now apply IH.
Qed.

Lemma wildcard_loop data :
  forall fs w,
    is_live w = true ->
    forEach fs (fun func => emit_event (EvInvoke func data)) w
    = logged (map (fun f => EvInvoke f data) fs) w.
Proof.
  induction fs as [|f fs IH]; intros w Hlive.
  - cbn. now rewrite logged_nil.
  - cbn [forEach map]. rewrite seq_live by exact Hlive.
    rewrite IH by exact Hlive.
    rewrite emit_event_logged, logged_logged. reflexivity.
Qed.

(** C6, as the code has it: on a registry whose keys other than
    [_everyTime] hold functions, and for a frame that does not begin with
    [_everyTime], the listener calls the handlers of exactly the headers
    that are a prefix of the frame (none when the frame is empty), in some
    order, and then every wildcard handler, each with the frame. *)
Theorem unsolicited_dispatch :
  forall data w fs,
    is_live w = true ->
    NoDup (Object_keys (notificationCallbacks w)) ->
    get_property "_everyTime" (notificationCallbacks w) = Some (VArr fs) ->
    (forall k x, In (k, x) (notificationCallbacks w) -> k <> "_everyTime" ->
                 exists h, x = VFun h) ->
    String.prefix "_everyTime" data = false ->
    let w' := unsolicited_listener data w in
    exists hs,
      Permutation hs
        (if String.eqb data EmptyString then []
         else header_handlers data (notificationCallbacks w))
      /\ log w' = (log w ++ map (fun h => EvInvoke h data) hs
                         ++ map (fun f => EvInvoke f data) fs)%list
      /\ state w' = Live.
Proof.
  intros data w fs Hlive Hnd Hevery Hfun Hpre. cbv zeta.
  destruct (String.eqb data EmptyString) eqn:Hempty.
  - apply String.eqb_eq in Hempty. subst data.
    unfold unsolicited_listener.
    exists []. split; [constructor|].
    rewrite seq_live; rewrite header_loop_empty_frame by exact Hlive; try exact Hlive.
    rewrite Hevery, wildcard_loop by exact Hlive.
    split; [reflexivity|]. apply is_live_state. exact Hlive.
  - exists (header_handlers data (notificationCallbacks w)).
    split; [apply Permutation_refl|].
    unfold unsolicited_listener.
    assert (Hloop := header_loop data (notificationCallbacks w) Hempty
                       (notificationCallbacks w) w Hlive eq_refl).
    rewrite seq_live; rewrite Hloop; try exact Hlive;
      try (intros k x Hin; now apply get_property_In);
      try (intros k x Hin Hk; apply (Hfun k x Hin); intros ->; congruence).
    change (notificationCallbacks (logged ?l w)) with (notificationCallbacks w).
    rewrite Hevery, wildcard_loop by exact Hlive.
    rewrite logged_logged.
    split; [reflexivity|]. apply is_live_state. exact Hlive.
Qed.

Lemma unsolicited_dispatch_witness :
  exists hs,
    Permutation hs [3%nat]
    /\ log (unsolicited_listener "+CMT: 12" registered) =
       (log registered ++ map (fun h => EvInvoke h "+CMT: 12") hs
          ++ [EvInvoke 1%nat "+CMT: 12"; EvInvoke 2%nat "+CMT: 12"])%list
    /\ state (unsolicited_listener "+CMT: 12" registered) = Live.
Proof.
  apply (unsolicited_dispatch "+CMT: 12" registered [1%nat; 2%nat]).
  - reflexivity.
  - vm_compute. repeat constructor; simpl; intuition discriminate.
  - reflexivity.
  - intros k x Hin Hk. vm_compute in Hin.
    destruct Hin as [H | [H | [H | []]]]; injection H as <- <-; eauto.
    congruence.
  - reflexivity.
Defined.

(** C6 as stated fails on the empty frame: the header registered under
    the empty token is a prefix of it, yet the guard on [data] keeps its
    handler from being called; the wildcard handler alone runs. *)
Lemma unsolicited_empty_frame_skips_header :
  let w := notifyOn [(EmptyString, 3%nat)] (Some [1%nat]) new_GPRS in
  get_property EmptyString (notificationCallbacks w) = Some (VFun 3%nat)
  /\ String.prefix EmptyString EmptyString = true
  /\ listeners w = 1%nat
  /\ log (postmaster_unsolicited EmptyString w) = (log w ++ [EvInvoke 1%nat EmptyString])%list.
Proof. repeat split. Qed.

(** A frame that begins with the reserved key selects the array stored
    under it as if it were a handler: the call throws and no handler, of
    either group, is reached. *)
Lemma unsolicited_reserved_key_throws :
  let w := postmaster_unsolicited "_everyTime to call" registered in
  state w = Threw (TypeError "notificationCallbacks[key] is not a function")
  /\ log w = log registered.
Proof. repeat split. Qed.

(** *** The registry that [notifyOn] builds *)

Lemma keys_set_property k x o :
  NoDup (Object_keys o) -> NoDup (Object_keys (set_property k x o)).
Proof.
  induction o as [|[k' y] o IH]; intros Hnd.
  - cbn. constructor; [intros [] | constructor].
  - cbn [set_property]. destruct (String.eqb_spec k k') as [-> | Hne].
    + exact Hnd.
    + cbn [Object_keys map fst] in *. inversion Hnd as [|? ? Hnotin Hnd']; subst.
      constructor; [|now apply IH].
      intros Hin. apply Hnotin.
      clear - Hin Hne. induction o as [|[k0 y0] o IHo]; cbn in *.
      * destruct Hin as [-> | []]. congruence.
      * destruct (String.eqb_spec k k0) as [-> | Hne0]; cbn in Hin.
        -- exact Hin.
        -- destruct Hin as [-> | Hin]; [now left | right; now apply IHo].
Qed.

Lemma in_set_property k x o k' y :
  In (k', y) (set_property k x o) -> (k' = k /\ y = x) \/ In (k', y) o.
Proof.
  induction o as [|[k0 y0] o IH]; cbn [set_property]; intros Hin.
  - destruct Hin as [H | []]. injection H as <- <-. now left.
  - destruct (String.eqb_spec k k0) as [-> | Hne].
    + destruct Hin as [H | Hin]; [injection H as <- <-; now left | right; now right].
    + destruct Hin as [H | Hin]; [right; now left |].
      destruct (IH Hin) as [H | H]; [now left | right; now right].
Qed.

Lemma get_set_property k x o k' :
  get_property k' (set_property k x o) =
  if String.eqb k' k then Some x else get_property k' o.
Proof.
  induction o as [|[k0 y0] o IH]; cbn [set_property get_property].
  - reflexivity.
  - destruct (String.eqb_spec k k0) as [-> | Hne]; cbn [get_property].
    + destruct (String.eqb_spec k' k0); reflexivity.
    + rewrite IH. destruct (String.eqb_spec k' k0) as [-> | Hne'].
      * destruct (String.eqb_spec k0 k); [congruence | reflexivity].
      * reflexivity.
Qed.

Lemma registry_ok_header k h o :
  k <> "_everyTime" -> registry_ok o -> registry_ok (set_property k (VFun h) o).
Proof.
  intros Hk (Hnd & (fs & Hfs) & Hfun). split; [|split].
  - now apply keys_set_property.
  - exists fs. rewrite get_set_property.
    destruct (String.eqb_spec "_everyTime" k); [congruence | exact Hfs].
  - intros k' y Hin Hk'. destruct (in_set_property _ _ _ _ _ Hin) as [[-> ->] | Hold].
    + now exists h.
    + now apply (Hfun k' y).
Qed.

Lemma registry_ok_wildcards fs o :
  registry_ok o -> registry_ok (set_property "_everyTime" (VArr fs) o).
Proof.
  intros (Hnd & _ & Hfun). split; [|split].
  - now apply keys_set_property.
  - exists fs. rewrite get_set_property. reflexivity.
  - intros k' y Hin Hk'. destruct (in_set_property _ _ _ _ _ Hin) as [[-> ->] | Hold].
    + congruence.
    + now apply (Hfun k' y).
Qed.

(** [notifyOn] keeps the registry well formed, and does not throw, as long
    as no header is registered under the reserved key. *)
Lemma notifyOn_keeps_registry pairs everyTime w :
  is_live w = true ->
  registry_ok (notificationCallbacks w) ->
  (forall p, In p pairs -> fst p <> "_everyTime") ->
  is_live (notifyOn pairs everyTime w) = true
  /\ registry_ok (notificationCallbacks (notifyOn pairs everyTime w)).
Proof.
  intros Hlive Hok Hpairs. unfold notifyOn.
  set (first := fun w0 : World => if (List.length (Object_keys (notificationCallbacks w0)) <? 2)%nat then notify w0 else w0).
  assert (H1 : is_live (first w) = true /\ registry_ok (notificationCallbacks (first w))).
  { unfold first. destruct (_ <? _)%nat; [|split; assumption].
    unfold notify. rewrite seq_live by exact Hlive. split; assumption. }
  destruct H1 as (Hl1 & Hok1).
  rewrite seq_live by exact Hl1.
  generalize dependent (first w). clear first w Hlive Hok. intros w Hl1 Hok1.
  assert (H2 : forall ps w0,
             is_live w0 = true -> registry_ok (notificationCallbacks w0) ->
             (forall p, In p ps -> fst p <> "_everyTime") ->
             let w2 := forEach ps (fun p w1 => set_notificationCallbacks
                          (set_property (fst p) (VFun (snd p)) (notificationCallbacks w1)) w1) w0 in
             is_live w2 = true /\ registry_ok (notificationCallbacks w2)).
  { induction ps as [|p ps IH]; intros w0 Hl0 Hok0 Hps; cbv zeta.
    - split; assumption.
    - cbn [forEach]. rewrite seq_live by exact Hl0.
      apply IH.
      + exact Hl0.
      + cbn. apply registry_ok_header; [apply Hps; now left | exact Hok0].
      + intros q Hq. apply Hps. now right. }
  destruct (H2 pairs w Hl1 Hok1 Hpairs) as (Hl2 & Hok2).
  rewrite seq_live by exact Hl2.
  generalize dependent (forEach pairs (fun p w1 => set_notificationCallbacks
                          (set_property (fst p) (VFun (snd p)) (notificationCallbacks w1)) w1) w).
  intros w2 Hl2 Hok2.
  destruct everyTime as [fs|]; [|split; assumption].
  clear - Hl2 Hok2. revert w2 Hl2 Hok2.
  induction fs as [|f fs IH]; intros w2 Hl2 Hok2.
  - split; assumption.
  - cbn [forEach].
    destruct Hok2 as (Hnd & (old & Hold) & Hfun).
    assert (Hstep : is_live (set_notificationCallbacks
                       (set_property "_everyTime" (VArr (old ++ [f])) (notificationCallbacks w2)) w2) = true
                    /\ registry_ok (notificationCallbacks (set_notificationCallbacks
                       (set_property "_everyTime" (VArr (old ++ [f])) (notificationCallbacks w2)) w2))).
    { split; [exact Hl2|]. cbn. apply registry_ok_wildcards.
      split; [exact Hnd | split; [now exists old | exact Hfun]]. }
    destruct Hstep as (Hl3 & Hok3).
    rewrite seq_live; rewrite Hold; try exact Hl3.
    now apply IH.
Qed.

Lemma registry_ok_new_GPRS : registry_ok (notificationCallbacks new_GPRS).
Proof.
  split; [|split].
  - cbn. constructor; [intros [] | constructor].
  - now exists [].
  - intros k x [H | []] Hk. injection H as <- <-. congruence.
Qed.

Lemma forEach_listeners {A : Type} (l : list A) (body : A -> M) :
  (forall x w, listeners (body x w) = listeners w) ->
  forall w, listeners (forEach l body w) = listeners w.
Proof.
  intros Hbody. induction l as [|x l IH]; intros w; [reflexivity|].
  cbn [forEach]. unfold seq. destruct (is_live (body x w)).
  - now rewrite IH.
  - apply Hbody.
Qed.

(** [notifyOn] subscribes exactly when the registry has fewer than two
    keys: always on a fresh object, and never again once a header has been
    registered. *)
Lemma notifyOn_listeners pairs everyTime w :
  is_live w = true ->
  listeners (notifyOn pairs everyTime w) =
  if (List.length (Object_keys (notificationCallbacks w)) <? 2)%nat
  then S (listeners w) else listeners w.
Proof.
  intros Hlive. unfold notifyOn.
  assert (Hrest : forall w0,
            listeners
              ((forEach pairs
                  (fun p w1 => set_notificationCallbacks
                     (set_property (fst p) (VFun (snd p)) (notificationCallbacks w1)) w1) ;;
                match everyTime with
                | Some fs =>
                    forEach fs
                      (fun newKey w1 =>
                         match get_property "_everyTime" (notificationCallbacks w1) with
                         | Some (VArr old) =>
                             set_notificationCallbacks
                               (set_property "_everyTime" (VArr (old ++ [newKey]))
                                  (notificationCallbacks w1)) w1
                         | _ => throw (TypeError "notificationCallbacks._everyTime.push is not a function") w1
                         end)
                | None => ret
                end) w0) = listeners w0).
  { intros w0. unfold seq at 1.
    match goal with |- context [is_live ?x] => destruct (is_live x) end.
    - destruct everyTime as [fs|].
      + rewrite forEach_listeners.
        * now rewrite forEach_listeners.
        * intros f w1.
          destruct (get_property "_everyTime" (notificationCallbacks w1)) as [[h|old]|];
            reflexivity.
      + unfold ret. now rewrite forEach_listeners.
    - now rewrite forEach_listeners. }
  assert (Hnotify : notify w = add_listener (emit_event EvSubscribe w)).
  { unfold notify. now rewrite seq_live by exact Hlive. }
  unfold seq at 1. cbv zeta.
  destruct (List.length (Object_keys (notificationCallbacks w)) <? 2)%nat.
  - rewrite Hnotify.
    change (is_live (add_listener (emit_event EvSubscribe w))) with (is_live w).
    rewrite Hlive, Hrest. reflexivity.
  - rewrite Hlive. apply Hrest.
Qed.

(** * Further properties *)

(** ** More on contact establishment *)

Lemma or_default_idem x d : d <> 0 -> or_default (Some (or_default x d)) d = or_default x d.
Proof.
  intros Hd. unfold or_default. destruct x as [n|].
  - destruct (Z.eqb_spec n 0) as [-> | Hn].
    + destruct (Z.eqb_spec d 0); congruence.
    + destruct (Z.eqb_spec n 0); congruence.
  - destruct (Z.eqb_spec d 0); congruence.
Qed.

Lemma or_default_zero_idem x : or_default (Some (or_default x 0)) 0 = or_default x 0.
Proof. apply or_default_rep. Qed.

(** The arguments count only through their defaults. *)
Lemma establishContact_normal modem v fuel callback rep reps :
  _establishContact modem v fuel callback rep reps =
  _establishContact modem v fuel callback
    (Some (or_default rep 0)) (Some (or_default reps 5)).
Proof.
  destruct fuel as [|fuel]; [reflexivity|].
  cbn [_establishContact].
  rewrite or_default_zero_idem, or_default_idem by lia. reflexivity.
Qed.

Lemma after_cycles_live v k : forall w, is_live (after_cycles v k w) = is_live w.
Proof. induction k as [|k IH]; intros w; [reflexivity|]. cbn [after_cycles]. now rewrite IH. Qed.

Lemma after_cycles_sent v k : forall w, sent (after_cycles v k w) = (sent w + k)%nat.
Proof.
  induction k as [|k IH]; intros w; cbn [after_cycles].
  - now rewrite Nat.add_0_r.
  - rewrite IH. cbn. lia.
Qed.

Lemma after_cycles_log v k :
  forall w, log (after_cycles v k w) = (log w ++ List.concat (repeat (probe_cycle v) k))%list.
Proof.
  induction k as [|k IH]; intros w; cbn [after_cycles repeat List.concat].
  - now rewrite app_nil_r.
  - rewrite IH. unfold probe_cycle at 2. cbn. rewrite <- !app_assoc. reflexivity.
Qed.

(** One probe, whatever the other replies of the modem are. *)
Lemma establishContact_probe modem v fuel callback rep reps w :
  is_live w = true ->
  (v = IndexJs -> rep <= reps) ->
  reps <> 0 ->
  _establishContact modem v (S fuel) callback (Some rep) (Some reps) w =
  let r := modem (sent w) (probe_request v) in
  match err r with
  | Some e =>
      if is_timeout e then
        _establishContact modem v fuel callback (Some (rep + 1)) (Some reps)
          (logged (toggle_events v) (after_send (probe_request v) w))
      else callback (Some e) DFalse (after_send (probe_request v) w)
  | None =>
      callback None (DFrames (data r))
        (emit_event (EvEmit "ready" None) (after_send (probe_request v) w))
  end.
Proof.
  intros Hlive Hle Hreps.
  cbn [_establishContact].
  rewrite or_default_rep, (or_default_reps reps 5 Hreps).
  assert (Hprobe :
    _txrx modem (MStr "AT") 1000
      (fun r => match err r with
         | Some e0 => if is_timeout e0
                      then togglePower v (_establishContact modem v fuel callback
                                            (Some (rep + 1)) (Some reps))
                      else callback (Some e0) DFalse
         | None => emit_event (EvEmit "ready" None) ;; callback None (DFrames (data r))
         end)
      (Some (contact_alternate v)) w
    = let r := modem (sent w) (probe_request v) in
      match err r with
      | Some e =>
          if is_timeout e then
            _establishContact modem v fuel callback (Some (rep + 1)) (Some reps)
              (logged (toggle_events v) (after_send (probe_request v) w))
          else callback (Some e) DFalse (after_send (probe_request v) w)
      | None =>
          callback None (DFrames (data r))
            (emit_event (EvEmit "ready" None) (after_send (probe_request v) w))
      end).
  { rewrite txrx_delegates, postmaster_send_live by assumption.
    change (txrx_request (MStr "AT") 1000 (Some (contact_alternate v)))
      with (probe_request v).
    cbv beta zeta.
    destruct (err (modem (sent w) (probe_request v))) as [e|].
    - destruct (is_timeout e); [|reflexivity].
      apply togglePower_live. exact Hlive.
    - apply seq_live. exact Hlive. }
  destruct v.
  - replace (rep >? reps) with false by (specialize (Hle eq_refl); lia).
    exact Hprobe.
  - exact Hprobe.
Qed.

(** After [k] probes that timed out the run stands at probe [k], [k]
    power cycles later. *)
Lemma establishContact_after_timeouts modem v callback :
  forall k fuel rep reps w,
    is_live w = true ->
    reps <> 0 ->
    (v = IndexJs -> rep + Z.of_nat k <= reps) ->
    (forall j, (j < k)%nat ->
       exists e, err (modem (sent w + j)%nat (probe_request v)) = Some e
                 /\ is_timeout e = true) ->
    _establishContact modem v (k + fuel) callback (Some rep) (Some reps) w =
    _establishContact modem v fuel callback (Some (rep + Z.of_nat k)) (Some reps)
      (after_cycles v k w).
Proof.
  induction k as [|k IH]; intros fuel rep reps w Hlive Hreps Hle Hto.
  - cbn [after_cycles Nat.add]. now rewrite Z.add_0_r.
  - cbn [Nat.add after_cycles].
    rewrite establishContact_probe; try assumption.
    2:{ intros Hv. specialize (Hle Hv). lia. }
    cbv zeta.
    destruct (Hto 0%nat (Nat.lt_0_succ _)) as (e & He & Hte).
    rewrite Nat.add_0_r in He. rewrite He, Hte.
    rewrite IH; try assumption.
    + f_equal. f_equal. lia.
    + intros Hv. specialize (Hle Hv). lia.
    + intros j Hj. destruct (Hto (S j)) as (e' & He' & Hte'); [lia|].
      exists e'. split; [|exact Hte'].
      replace (sent (logged (toggle_events v) (after_send (probe_request v) w)) + j)%nat
        with (sent w + S j)%nat by (cbn; lia).
      exact He'.
Qed.

(** X1: [_establishContact], whatever the attempt and ceiling it is called
    with: when the first [k] probes time out and probe [k] gets a reply
    without error (in the earlier revision, [k] attempts being within the
    ceiling), the run cycles the power [k] times, sends [k + 1] probes,
    emits 'ready' and hands the reply's frames to the callback with no
    error. *)
Theorem establishContact_ready_after_timeouts :
  forall modem v k fuel callback rep reps w,
    is_live w = true ->
    (v = IndexJs -> or_default rep 0 + Z.of_nat k <= or_default reps 5) ->
    (k < fuel)%nat ->
    (forall j, (j < k)%nat ->
       exists e, err (modem (sent w + j)%nat (probe_request v)) = Some e
                 /\ is_timeout e = true) ->
    err (modem (sent w + k)%nat (probe_request v)) = None ->
    exists w0,
      _establishContact modem v fuel callback rep reps w =
      callback None (DFrames (data (modem (sent w + k)%nat (probe_request v)))) w0
      /\ is_live w0 = true
      /\ log w0 = (log w ++ List.concat (repeat (probe_cycle v) k)
                     ++ [EvSend (probe_request v); EvEmit "ready" None])%list.
Proof.
  intros modem v k fuel callback rep reps w Hlive Hle Hfuel Hto Hclean.
  assert (Hreps : or_default reps 5 <> 0).
  { unfold or_default. destruct reps as [n|]; [|lia].
    destruct (Z.eqb_spec n 0); lia. }
  rewrite establishContact_normal.
  replace fuel with (k + S (fuel - S k))%nat by lia.
  rewrite establishContact_after_timeouts; try assumption.
  rewrite establishContact_probe.
  - cbv zeta. rewrite after_cycles_sent, Hclean.
    eexists. split; [reflexivity|]. split.
    + change (is_live (emit_event ?e (after_send ?rq ?x))) with (is_live x).
      now rewrite after_cycles_live.
    + change (log (emit_event ?e (after_send ?rq ?x))) with ((log x ++ [EvSend rq]) ++ [e])%list.
      rewrite after_cycles_log, <- !app_assoc. reflexivity.
  - now rewrite after_cycles_live.
  - exact Hle.
  - exact Hreps.
Qed.

Lemma establishContact_ready_after_timeouts_witness :
  exists w0,
    _establishContact (wakes_after 2) IndexJs 4 user_callback None None new_GPRS =
    user_callback None (DFrames ["AT"; "OK"]) w0
    /\ is_live w0 = true
    /\ log w0 = (log new_GPRS ++ List.concat (repeat (probe_cycle IndexJs) 2)
                   ++ [EvSend (probe_request IndexJs); EvEmit "ready" None])%list.
Proof.
  apply (establishContact_ready_after_timeouts (wakes_after 2) IndexJs 2 4
           user_callback None None new_GPRS).
  - reflexivity.
  - intros _. simpl. lia.
  - lia.
  - intros [|[|j]] Hj; [eexists; split; reflexivity .. | lia].
  - reflexivity.
Defined.

(** X2: when the first [k] probes time out and probe [k] resolves with
    an error that is not a timeout, [_establishContact] cycles the power
    [k] times and then hands that very error and [false] to the callback,
    without emitting 'ready' and without probing again. *)
Theorem establishContact_error_after_timeouts :
  forall modem v k fuel callback rep reps w e,
    is_live w = true ->
    (v = IndexJs -> or_default rep 0 + Z.of_nat k <= or_default reps 5) ->
    (k < fuel)%nat ->
    (forall j, (j < k)%nat ->
       exists e', err (modem (sent w + j)%nat (probe_request v)) = Some e'
                  /\ is_timeout e' = true) ->
    err (modem (sent w + k)%nat (probe_request v)) = Some e ->
    is_timeout e = false ->
    exists w0,
      _establishContact modem v fuel callback rep reps w =
      callback (Some e) DFalse w0
      /\ is_live w0 = true
      /\ log w0 = (log w ++ List.concat (repeat (probe_cycle v) k)
                     ++ [EvSend (probe_request v)])%list.
Proof.
  intros modem v k fuel callback rep reps w e Hlive Hle Hfuel Hto Herr Hnt.
  assert (Hreps : or_default reps 5 <> 0).
  { unfold or_default. destruct reps as [n|]; [|lia].
    destruct (Z.eqb_spec n 0); lia. }
  rewrite establishContact_normal.
  replace fuel with (k + S (fuel - S k))%nat by lia.
  rewrite establishContact_after_timeouts; try assumption.
  rewrite establishContact_probe.
  - cbv zeta. rewrite after_cycles_sent, Herr, Hnt.
    eexists. split; [reflexivity|]. split.
    + change (is_live (after_send ?rq ?x)) with (is_live x).
      now rewrite after_cycles_live.
    + change (log (after_send ?rq ?x)) with (log x ++ [EvSend rq])%list.
      rewrite after_cycles_log, <- !app_assoc. reflexivity.
  - now rewrite after_cycles_live.
  - exact Hle.
  - exact Hreps.
Qed.

Lemma establishContact_error_after_timeouts_witness :
  exists w0,
    _establishContact (fails_after 1) Part000 3 user_callback None None new_GPRS =
    user_callback (Some (mkError None "ERROR")) DFalse w0
    /\ is_live w0 = true
    /\ log w0 = (log new_GPRS ++ List.concat (repeat (probe_cycle Part000) 1)
                   ++ [EvSend (probe_request Part000)])%list.
Proof.
  apply (establishContact_error_after_timeouts (fails_after 1) Part000 1 3
           user_callback None None new_GPRS (mkError None "ERROR")).
  - reflexivity.
  - discriminate.
  - lia.
  - intros [|j] Hj; [eexists; split; reflexivity | lia].
  - reflexivity.
  - reflexivity.
Defined.

(** X3: the earlier revision with an integer ceiling [reps] from 1 to
    2^53 - 1, the range in which the attempt counter is incremented
    exactly, on a modem whose every probe times out: from attempt [rep] it
    cycles the power [reps + 1 - rep] times, one more than the ceiling when
    started at 0, and then reports the failure naming [reps]; no callback
    comes before. *)
Theorem establishContact_ceiling :
  forall modem callback rep reps fuel w,
    always_timeout modem ->
    is_live w = true ->
    0 < reps ->
    reps <= 9007199254740991 ->
    0 <= rep <= reps + 1 ->
    (Z.to_nat (reps + 1 - rep) < fuel)%nat ->
    exists w0,
      _establishContact modem IndexJs fuel callback (Some rep) (Some reps) w =
      callback (Some (mkError None (contact_failed_message reps))) DFalse w0
      /\ power_cycles (log w0) = (power_cycles (log w) + Z.to_nat (reps + 1 - rep))%nat
      /\ callbacks (log w0) = callbacks (log w).
Proof.
  intros modem callback rep reps fuel w Hm Hlive Hreps Hexact Hrep Hfuel.
  destruct (establishContact_index_js_gives_up modem callback Hm
              (Z.to_nat (reps + 1 - rep)) rep reps fuel w)
    as (w0 & Hrun & _ & Hlog); try assumption; try lia.
  exists w0. split; [exact Hrun|].
  rewrite Hlog, power_cycles_app, callbacks_app.
  rewrite power_cycles_probe_cycles, callbacks_probe_cycles, app_nil_r.
  split; reflexivity.
Qed.

Lemma establishContact_ceiling_witness :
  exists w0,
    _establishContact silent IndexJs 5 user_callback (Some 0) (Some 3) new_GPRS =
    user_callback (Some (mkError None (contact_failed_message 3))) DFalse w0
    /\ power_cycles (log w0) = (power_cycles (log new_GPRS) + Z.to_nat (3 + 1 - 0))%nat
    /\ callbacks (log w0) = callbacks (log new_GPRS).
Proof.
  apply (establishContact_ceiling silent user_callback 0 3 5 new_GPRS).
  - exact silent_always_timeout.
  - reflexivity.
  - lia.
  - lia.
  - lia.
  - simpl. lia.
Defined.

(** Every run of [_establishContact] that ends has called back once. *)
Lemma establishContact_outcome modem v :
  forall fuel rep reps w,
    is_live w = true ->
    let w' := _establishContact modem v fuel user_callback rep reps w in
    exists l,
      log w' = (log w ++ l)%list
      /\ ((state w' = Live /\ List.length (callbacks l) = 1%nat
           /\ (emitted "ready" l = 1%nat <-> exists d, callbacks l = [(None, d)])
           /\ (emitted "ready" l <= 1)%nat)
          \/ (state w' = NoFuel /\ callbacks l = [] /\ emitted "ready" l = 0%nat)).
Proof.
  induction fuel as [|fuel IH]; intros rep reps w Hlive; cbv zeta.
  - exists []. rewrite app_nil_r. split; [reflexivity|]. right. repeat split.
  - rewrite establishContact_normal.
    assert (Hreps : or_default reps 5 <> 0).
    { unfold or_default. destruct reps as [n|]; [|lia].
      destruct (Z.eqb_spec n 0); lia. }
    set (rep0 := or_default rep 0). set (reps0 := or_default reps 5).
    assert (Hcases : (v = IndexJs /\ rep0 > reps0) \/ (v = IndexJs -> rep0 <= reps0)).
    { destruct v; [|right; discriminate].
      destruct (Z_le_gt_dec rep0 reps0); [right; intros _; assumption | left; now split]. }
    destruct Hcases as [[-> Hgt] | Hle].
    + cbn [_establishContact].
      rewrite or_default_rep, (or_default_reps reps0 5 Hreps).
      replace (rep0 >? reps0) with true by lia.
      eexists. split; [reflexivity|]. left.
      apply is_live_state in Hlive.
      split; [exact Hlive|]. split; [reflexivity|]. split; [|cbn; lia].
      cbn. split; [discriminate|]. intros (d & Hd). discriminate.
    + rewrite establishContact_probe; try assumption. cbv zeta.
      destruct (err (modem (sent w) (probe_request v))) as [e|] eqn:He.
      * destruct (is_timeout e) eqn:Hte.
        -- destruct (IH (Some (rep0 + 1)) (Some reps0)
                       (logged (toggle_events v) (after_send (probe_request v) w)))
             as (l & Hlog & Hout); [exact Hlive|].
           exists (probe_cycle v ++ l)%list. split.
           ++ rewrite Hlog. cbn. rewrite <- !app_assoc. reflexivity.
           ++ assert (Hc : callbacks (probe_cycle v ++ l) = callbacks l) by reflexivity.
              assert (Hr : emitted "ready" (probe_cycle v ++ l) = emitted "ready" l)
                by reflexivity.
              rewrite Hc, Hr. exact Hout.
        -- exists [EvSend (probe_request v); EvCallback (Some e) DFalse].
           split; [cbn; now rewrite <- app_assoc|]. left.
           apply is_live_state in Hlive.
           split; [exact Hlive|]. split; [reflexivity|]. split; [|cbn; lia].
           cbn. split; [discriminate|]. intros (d & Hd). discriminate.
      * exists [EvSend (probe_request v); EvEmit "ready" None;
                EvCallback None (DFrames (data (modem (sent w) (probe_request v))))].
        split; [cbn; now rewrite <- !app_assoc|]. left.
        apply is_live_state in Hlive.
        split; [exact Hlive|]. split; [reflexivity|]. split; [|cbn; lia].
        cbn. split; [eauto | reflexivity].
Qed.

(** X4: for every modem and both revisions, a run of [use] that has come to
    an end has called the callback exactly once and has emitted 'ready' at
    most once, exactly when the callback got no error; a run that is still
    retrying has neither called back nor emitted 'ready'. *)
Theorem establishContact_calls_back_once :
  forall modem v fuel,
    let w := use modem v fuel user_callback in
    (state w = Live
     /\ List.length (callbacks (log w)) = 1%nat
     /\ (emitted "ready" (log w) = 1%nat <-> exists d, callbacks (log w) = [(None, d)])
     /\ (emitted "ready" (log w) <= 1)%nat)
    \/ (state w = NoFuel /\ callbacks (log w) = [] /\ emitted "ready" (log w) = 0%nat).
Proof.
  intros modem v fuel. cbv zeta. unfold use.
  destruct (establishContact_outcome modem v fuel None None new_GPRS eq_refl)
    as (l & Hlog & Hout).
  change (log new_GPRS) with (@nil event) in Hlog. cbn [app] in Hlog.
  rewrite Hlog. exact Hout.
Qed.

Lemma power_level_app l l' start :
  power_level start (l ++ l') = power_level (power_level start l) l'.
Proof.
  revert start. induction l as [|e l IH]; intros start; [reflexivity|].
  destruct e; cbn [app power_level]; apply IH.
Qed.

Lemma waited_app l l' : waited (l ++ l') = waited l + waited l'.
Proof.
  induction l as [|e l IH]; [reflexivity|].
  destruct e; cbn [app waited]; rewrite IH; lia.
Qed.

Lemma emitted_app name l l' :
  emitted name (l ++ l') = (emitted name l + emitted name l')%nat.
Proof.
  induction l as [|e l IH]; [reflexivity|].
  destruct e; cbn [app emitted]; try exact IH.
  destruct (String.eqb name0 name); cbn; now rewrite IH.
Qed.

(** X5: [togglePower] lowers the power line once and leaves it high, spends
    6100 ms in timers (6600 ms in the later revision), emits 'powerToggled'
    once, sends nothing to the modem, and only then runs its callback. *)
Theorem togglePower_cycle :
  forall v callback w,
    is_live w = true ->
    exists w1,
      togglePower v callback w = callback w1
      /\ is_live w1 = true
      /\ power_level None (log w1) = Some true
      /\ power_cycles (log w1) = S (power_cycles (log w))
      /\ waited (log w1) =
           waited (log w) + match v with IndexJs => 6100 | Part000 => 6600 end
      /\ emitted "powerToggled" (log w1) = S (emitted "powerToggled" (log w))
      /\ requests (log w1) = requests (log w)
      /\ callbacks (log w1) = callbacks (log w).
Proof.
  intros v callback w Hlive.
  exists (logged (toggle_events v) w).
  split; [now apply togglePower_live|]. split; [exact Hlive|].
  change (log (logged (toggle_events v) w)) with (log w ++ toggle_events v)%list.
  rewrite power_level_app, power_cycles_app, waited_app, emitted_app,
    requests_app, callbacks_app.
  split; [reflexivity|]. split; [cbn; lia|]. split; [destruct v; reflexivity|].
  split; [cbn; lia|]. split; cbn; now rewrite app_nil_r.
Qed.

Lemma togglePower_cycle_witness :
  exists w1,
    togglePower Part000 ret new_GPRS = ret w1
    /\ is_live w1 = true
    /\ power_level None (log w1) = Some true
    /\ power_cycles (log w1) = S (power_cycles (log new_GPRS))
    /\ waited (log w1) = waited (log new_GPRS) + 6600
    /\ emitted "powerToggled" (log w1) = S (emitted "powerToggled" (log new_GPRS))
    /\ requests (log w1) = requests (log new_GPRS)
    /\ callbacks (log w1) = callbacks (log new_GPRS).
Proof.
  apply (togglePower_cycle Part000 ret new_GPRS). reflexivity.
Defined.

(** ** More on chains *)

Lemma chain_mismatch modem v messages patiences replies callback w :
  List.length messages <> List.length patiences
  \/ List.length messages <> List.length replies ->
  chain modem v messages patiences replies callback w =
  callback (Some (mkError None (lengths_message v))) DFalse w.
Proof.
  intros Hne.
  assert (Htest : negb (List.length messages =? List.length patiences)%nat
                  || negb (List.length messages =? List.length replies)%nat = true).
  { apply orb_true_iff. destruct Hne as [H | H]; [left | right];
      apply negb_true_iff, Nat.eqb_neq; exact H. }
  destruct messages as [|m rest]; cbn [chain]; rewrite Htest; reflexivity.
Qed.

(** X6: when the three arrays of [chain] do not have the same length, the
    callback gets the error 'array lengths must match' and [false] at once:
    nothing is sent and nothing else changes. *)
Theorem chain_lengths_must_match :
  forall modem v messages patiences replies callback w,
    List.length messages <> List.length patiences
    \/ List.length messages <> List.length replies ->
    chain modem v messages patiences replies callback w =
    callback (Some (mkError None (lengths_message v))) DFalse w.
Proof.
  intros modem v messages patiences replies callback w Hne.
  now apply chain_mismatch.
Qed.

Lemma chain_lengths_must_match_witness :
  chain silent IndexJs ["AT"; "ATE0"] [1000] [EArr ["AT"; "OK"]; EArr ["ATE0"; "OK"]]
    user_callback new_GPRS =
  user_callback (Some (mkError None "array lengths must match")) DFalse new_GPRS.
Proof.
  apply (chain_lengths_must_match silent IndexJs ["AT"; "ATE0"] [1000]
           [EArr ["AT"; "OK"]; EArr ["ATE0"; "OK"]] user_callback new_GPRS).
  left. simpl. lia.
Defined.

(** A chain of no steps does nothing at all: nothing is sent and the
    callback is never called. *)
Lemma chain_of_no_steps_is_silent :
  forall modem v callback w,
    chain modem v [] [] [] callback w = w.
Proof. reflexivity. Qed.

(** The last step: its reply goes to the callback as it is. *)
Lemma chain_last_step modem v m patiences replies callback w tok :
  is_live w = true ->
  List.length [m] = List.length patiences ->
  List.length [m] = List.length replies ->
  last_expected (first_expected replies) = inr tok ->
  let rq := step_request [m] patiences replies 0 in
  chain modem v [m] patiences replies callback w =
  callback (err (modem (sent w) rq)) (DFrames (data (modem (sent w) rq)))
    (after_send rq w).
Proof.
  intros Hlive Hp Hr Htok rq.
  cbn [chain]. rewrite <- Hp, <- Hr. cbn [List.length Nat.eqb negb orb].
  rewrite Htok, txrx_delegates, postmaster_send_live by assumption.
  rewrite (step_request_head m [] patiences replies tok Htok). reflexivity.
Qed.

(** X7: when every expected reply of a chain of [k + 1] steps is an array
    or [false] (a [null] or [undefined] entry makes the chain throw) and
    every intermediate step is found valid, the requests of all steps are
    sent in order and the reply to the last one, error and frames, goes to
    the callback as it is, with no validation and no 'intermediate' event
    for it. *)
Theorem chain_passes_final_reply :
  forall modem v callback k messages patiences replies w,
    is_live w = true ->
    List.length messages = List.length patiences ->
    List.length messages = List.length replies ->
    List.length messages = S k ->
    (forall j, (j <= k)%nat ->
       exists tok, last_expected (nth j replies EUndefined) = inr tok) ->
    (forall j, (j < k)%nat ->
       intermediate_correct (nth j replies EUndefined)
         (modem (sent w + j)%nat (step_request messages patiences replies j)) = true) ->
    let r := modem (sent w + k)%nat (step_request messages patiences replies k) in
    exists w0,
      chain modem v messages patiences replies callback w =
      callback (err r) (DFrames (data r)) w0
      /\ is_live w0 = true
      /\ pending w0 = false
      /\ log w0 =
           (log w
              ++ flat_map (fun j => [EvSend (step_request messages patiences replies j);
                                     EvEmit "intermediate" (Some true)])
                          (List.seq 0 k)
              ++ [EvSend (step_request messages patiences replies k)])%list.
Proof.
  intros modem v callback.
  induction k as [|k IH];
    intros messages patiences replies w Hlive Hp Hr Hk Htok Hgood; cbv zeta.
  - destruct messages as [|m [|m1 rest]]; cbn [List.length] in Hk; try lia.
    destruct (Htok 0%nat (Nat.le_refl _)) as (tok & Htok0).
    replace (nth 0 replies EUndefined) with (first_expected replies) in Htok0
      by (destruct replies; reflexivity).
    rewrite (chain_last_step modem v m patiences replies callback w tok);
      try assumption.
    cbv zeta. rewrite Nat.add_0_r.
    eexists. split; [reflexivity|]. split; [exact Hlive|]. split; [reflexivity|].
    reflexivity.
  - destruct messages as [|m0 [|m1 rest]]; cbn [List.length] in Hk; try lia.
    destruct patiences as [|p0 ps]; [discriminate|].
    destruct replies as [|r0 rs]; [discriminate|].
    destruct (Htok 0%nat (Nat.le_0_l _)) as (tok & Htok0).
    cbn [nth] in Htok0.
    rewrite (chain_intermediate_step modem v m0 m1 rest (p0 :: ps) (r0 :: rs) callback w tok);
      try assumption.
    cbv zeta.
    pose proof (Hgood 0%nat (Nat.lt_0_succ _)) as H0.
    rewrite Nat.add_0_r in H0. cbn [nth] in H0.
    cbn [first_expected]. rewrite H0. cbn [tl].
    set (w1 := emit_event (EvEmit "intermediate" (Some true))
                 (after_send (step_request (m0 :: m1 :: rest) (p0 :: ps) (r0 :: rs) 0) w)).
    destruct (IH (m1 :: rest) ps rs w1) as (w0 & Hrun & Hl0 & Hpend & Hlog).
    + exact Hlive.
    + cbn [List.length] in Hp |- *. lia.
    + cbn [List.length] in Hr |- *. lia.
    + cbn [List.length] in Hk |- *. lia.
    + intros j Hj. apply (Htok (S j)). lia.
    + intros j Hj. specialize (Hgood (S j) ltac:(lia)).
      replace (sent w1 + j)%nat with (sent w + S j)%nat by (cbn; lia).
      exact Hgood.
    + exists w0.
      replace (sent w + S k)%nat with (sent w1 + k)%nat by (cbn; lia).
      split; [exact Hrun|]. split; [exact Hl0|]. split; [exact Hpend|].
      rewrite Hlog. subst w1.
      cbn [log set_pending emit_event after_send count_send].
      change (List.seq 0 (S k)) with (0%nat :: List.seq 1 k).
      rewrite <- (seq_shift k 0).
      cbn [flat_map]. rewrite !flat_map_concat_map, map_map.
      rewrite <- !app_assoc. reflexivity.
Qed.

Lemma chain_passes_final_reply_witness :
  exists w0,
    chain (error_at 2) Part000 ["AT"; "ATE0"; "AT+CMGF=1"] [1000; 1000; 2000]
      [EArr ["AT"; "OK"]; EArr ["ATE0"; "OK"]; EArr ["AT+CMGF=1"; "OK"]]
      user_callback new_GPRS =
    user_callback None (DFrames ["AT+CMGF=1"; "ERROR"]) w0
    /\ is_live w0 = true
    /\ pending w0 = false
    /\ log w0 =
         (log new_GPRS
            ++ flat_map (fun j => [EvSend (step_request ["AT"; "ATE0"; "AT+CMGF=1"]
                                             [1000; 1000; 2000]
                                             [EArr ["AT"; "OK"]; EArr ["ATE0"; "OK"];
                                              EArr ["AT+CMGF=1"; "OK"]] j);
                                   EvEmit "intermediate" (Some true)])
                        (List.seq 0 2)
            ++ [EvSend (step_request ["AT"; "ATE0"; "AT+CMGF=1"] [1000; 1000; 2000]
                          [EArr ["AT"; "OK"]; EArr ["ATE0"; "OK"];
                           EArr ["AT+CMGF=1"; "OK"]] 2)])%list.
Proof.
  apply (chain_passes_final_reply (error_at 2) Part000 user_callback 2
           ["AT"; "ATE0"; "AT+CMGF=1"] [1000; 1000; 2000]
           [EArr ["AT"; "OK"]; EArr ["ATE0"; "OK"]; EArr ["AT+CMGF=1"; "OK"]] new_GPRS).
  - reflexivity.
  - reflexivity.
  - reflexivity.
  - reflexivity.
  - intros [|[|[|j]]] Hj; simpl; eauto. lia.
  - intros [|[|j]] Hj; [reflexivity | reflexivity | lia].
Defined.

Lemma intermediate_loop_false frames :
  forall received i, intermediate_loop frames received i false = false.
Proof.
  induction received as [|d received IH]; intros i; [reflexivity|].
  cbn [intermediate_loop andb]. apply IH.
Qed.

(** X8: an intermediate step that resolves with an error breaks the chain
    whatever frames came with it and whatever reply was expected, a false-y
    one included: the Postmaster is force-cleared and the callback gets the
    chain-broke error in place of the step's own error. *)
Theorem chain_breaks_on_error :
  forall modem v m m' rest patiences replies callback w tok e,
    is_live w = true ->
    List.length (m :: m' :: rest) = List.length patiences ->
    List.length (m :: m' :: rest) = List.length replies ->
    last_expected (first_expected replies) = inr tok ->
    let rq := step_request (m :: m' :: rest) patiences replies 0 in
    err (modem (sent w) rq) = Some e ->
    chain modem v (m :: m' :: rest) patiences replies callback w =
    callback (Some (mkError None (chain_broke_message v m))) DFalse
      (set_pending false
         (emit_event EvForceClear
            (emit_event (EvEmit "intermediate" (Some false)) (after_send rq w)))).
Proof.
  intros modem v m m' rest patiences replies callback w tok e Hlive Hp Hr Htok rq Herr.
  rewrite (chain_intermediate_step modem v m m' rest patiences replies callback w tok);
    try assumption.
  cbv zeta. fold rq.
  assert (Hbad : intermediate_correct (first_expected replies) (modem (sent w) rq) = false).
  { unfold intermediate_correct. rewrite Herr.
    destruct (first_expected replies); try reflexivity.
    apply intermediate_loop_false. }
  rewrite Hbad. reflexivity.
Qed.

Lemma chain_breaks_on_error_witness :
  chain silent IndexJs ["AT"; "ATE0"] [1000; 1000]
    [EFalse; EArr ["ATE0"; "OK"]] user_callback new_GPRS =
  user_callback (Some (mkError None "chain broke on AT")) DFalse
    (set_pending false
       (emit_event EvForceClear
          (emit_event (EvEmit "intermediate" (Some false))
             (after_send
                (step_request ["AT"; "ATE0"] [1000; 1000]
                   [EFalse; EArr ["ATE0"; "OK"]] 0)
                new_GPRS)))).
Proof.
  apply (chain_breaks_on_error silent IndexJs "AT" "ATE0" [] [1000; 1000]
           [EFalse; EArr ["ATE0"; "OK"]] user_callback new_GPRS None
           (mkError (Some "timeout") "no reply")).
  - reflexivity.
  - reflexivity.
  - reflexivity.
  - reflexivity.
  - reflexivity.
Defined.

Lemma intermediate_loop_true_inv frames :
  forall received i,
    (i <= List.length frames)%nat ->
    intermediate_loop frames received i true = true ->
    (List.length received + i <= List.length frames)%nat
    /\ (forall j d e, nth_error received j = Some d -> nth_error frames (i + j) = Some e ->
                      frame_matches d e).
Proof.
  induction received as [|d received IH]; intros i Hi Hloop.
  - split; [cbn; lia|]. intros [|j] d e Hd; discriminate.
  - cbn [intermediate_loop andb] in Hloop.
    destruct (indexOf_found [d; "\x00" ++ d; NUL ++ d] (nth_error frames i)) eqn:Hfound.
    + destruct (nth_error frames i) as [e0|] eqn:He0; [|discriminate].
      assert (Hlt : (i < List.length frames)%nat).
      { apply nth_error_Some. congruence. }
      destruct (IH (S i) Hlt Hloop) as (Hlen & Hall).
      split; [cbn [List.length]; lia|].
      intros [|j] d' e' Hd' He'.
      * injection Hd' as <-. rewrite Nat.add_0_r, He0 in He'. injection He' as <-.
        now apply frame_matches_iff.
      * apply (Hall j d' e'); [exact Hd'|]. now rewrite Nat.add_succ_r in He'.
    + now rewrite intermediate_loop_false in Hloop.
Qed.

(** X27: a chain whose step [k] (counted from 0) is an intermediate one,
    whose expected replies up to step [k] are arrays or [false], whose
    earlier steps were found valid, and whose step [k] resolves with a
    reply that [intermediate] finds invalid: an error, or a received frame
    that fails the comparison with the expected token at its position.
    The chain then sends the requests of steps 0 to [k] and no other,
    force-clears the Postmaster, whose pending slot is then free, and its
    whole remaining effect is one call of the callback with the error
    naming the message of step [k]. *)
Theorem chain_aborts_at_mismatch :
  forall modem v callback k messages patiences replies m w,
    is_live w = true ->
    List.length messages = List.length patiences ->
    List.length messages = List.length replies ->
    (S k < List.length messages)%nat ->
    nth_error messages k = Some m ->
    (forall j, (j <= k)%nat ->
       exists tok, last_expected (nth j replies EUndefined) = inr tok) ->
    (forall j, (j < k)%nat ->
       intermediate_correct (nth j replies EUndefined)
         (modem (sent w + j)%nat (step_request messages patiences replies j)) = true) ->
    intermediate_correct (nth k replies EUndefined)
      (modem (sent w + k)%nat (step_request messages patiences replies k)) = false ->
    exists w0 l,
      chain modem v messages patiences replies callback w =
      callback (Some (mkError None (chain_broke_message v m))) DFalse w0
      /\ is_live w0 = true
      /\ pending w0 = false
      /\ log w0 = (l ++ [EvEmit "intermediate" (Some false); EvForceClear])%list
      /\ requests (log w0) =
           (requests (log w)
              ++ map (step_request messages patiences replies) (List.seq 0 (S k)))%list
      /\ callbacks (log w0) = callbacks (log w).
Proof.
  intros modem v callback k messages patiences replies m w
         Hlive Hp Hr Hk Hm Htok Hgood Hbad.
  destruct (chain_run_to_mismatch modem v callback k messages patiences replies m w
              Hlive Hp Hr Hk Hm Htok Hgood Hbad)
    as (w0 & Hrun & Hl0 & Hpend & Hlog).
  exists w0.
  exists (log w
            ++ flat_map (fun j => [EvSend (step_request messages patiences replies j);
                                   EvEmit "intermediate" (Some true)])
                        (List.seq 0 k)
            ++ [EvSend (step_request messages patiences replies k)])%list.
  split; [exact Hrun|]. split; [exact Hl0|]. split; [exact Hpend|].
  split; [|split].
  - rewrite Hlog, <- !app_assoc. reflexivity.
  - rewrite Hlog, !requests_app, requests_validated_steps.
    rewrite seq_S, map_app. reflexivity.
  - rewrite Hlog, !callbacks_app.
    assert (Hnone : forall l0,
              callbacks (flat_map (fun j => [EvSend (step_request messages patiences replies j);
                                             EvEmit "intermediate" (Some true)]) l0) = []).
    { induction l0 as [|j l0 IHl]; [reflexivity | exact IHl]. }
    rewrite Hnone. simpl. now rewrite app_nil_r.
Qed.

Lemma chain_aborts_at_mismatch_witness :
  exists w0 l,
    chain (error_at 1) IndexJs ["AT"; "ATE0"; "AT+CMGF=1"] [1000; 1000; 2000]
      [EArr ["AT"; "OK"]; EArr ["ATE0"; "OK"]; EArr ["AT+CMGF=1"; "OK"]]
      user_callback new_GPRS =
    user_callback (Some (mkError None "chain broke on ATE0")) DFalse w0
    /\ is_live w0 = true
    /\ pending w0 = false
    /\ log w0 = (l ++ [EvEmit "intermediate" (Some false); EvForceClear])%list
    /\ requests (log w0) =
         (requests (log new_GPRS)
            ++ map (step_request ["AT"; "ATE0"; "AT+CMGF=1"] [1000; 1000; 2000]
                      [EArr ["AT"; "OK"]; EArr ["ATE0"; "OK"]; EArr ["AT+CMGF=1"; "OK"]])
                   (List.seq 0 2))%list
    /\ callbacks (log w0) = callbacks (log new_GPRS).
Proof.
  apply (chain_aborts_at_mismatch (error_at 1) IndexJs user_callback 1
           ["AT"; "ATE0"; "AT+CMGF=1"] [1000; 1000; 2000]
           [EArr ["AT"; "OK"]; EArr ["ATE0"; "OK"]; EArr ["AT+CMGF=1"; "OK"]]
           "ATE0" new_GPRS).
  - reflexivity.
  - reflexivity.
  - reflexivity.
  - simpl. lia.
  - reflexivity.
  - intros [|[|j]] Hj; simpl; eauto. lia.
  - intros [|j] Hj; [reflexivity | lia].
  - reflexivity.
Defined.

(** X9: the verdict of [intermediate] against an array of expected
    frames, in full: the step is valid exactly when there is no error, no
    more frames were received than expected, and each received frame
    equals its expected token once the candidates built from the received
    frame are allowed for.  A reply longer than expected is never valid. *)
Theorem intermediate_correct_iff :
  forall frames r,
    intermediate_correct (EArr frames) r = true
    <-> err r = None
        /\ (List.length (data r) <= List.length frames)%nat
        /\ (forall i d e, nth_error (data r) i = Some d -> nth_error frames i = Some e ->
                          frame_matches d e).
Proof.
  intros frames r. unfold intermediate_correct. split.
  - intros H. destruct (err r) as [e|].
    + now rewrite intermediate_loop_false in H.
    + destruct (intermediate_loop_true_inv frames (data r) 0%nat (Nat.le_0_l _) H)
        as (Hlen & Hall).
      split; [reflexivity|]. split; [lia | exact Hall].
  - intros (Herr & Hlen & Hall). rewrite Herr.
    apply intermediate_loop_ok; [lia | exact Hall].
Qed.

Lemma step_request_floor messages patiences replies j :
  100 <= rq_patience (step_request messages patiences replies j).
Proof. unfold step_request. apply txrx_patience_at_least_floor. Qed.

(** X10: whatever patiences the caller lists, no request of a chain
    reaches the Postmaster with a patience below 100: if that held of the
    requests sent before the chain, it holds after it. *)
Theorem chain_requests_respect_floor :
  forall modem v messages patiences replies w,
    is_live w = true ->
    Forall (fun rq => 100 <= rq_patience rq) (requests (log w)) ->
    Forall (fun rq => 100 <= rq_patience rq)
      (requests (log (chain modem v messages patiences replies user_callback w))).
Proof.
  intros modem v.
  induction messages as [|m rest IH]; intros patiences replies w Hlive Hok.
  - cbn [chain]. destruct (_ || _); [|exact Hok].
    unfold user_callback. cbn. rewrite requests_app, app_nil_r. exact Hok.
  - destruct (Nat.eq_dec (List.length (m :: rest)) (List.length patiences)) as [Hp | Hp].
    2:{ rewrite chain_mismatch by (now left).
        unfold user_callback. cbn. rewrite requests_app, app_nil_r. exact Hok. }
    destruct (Nat.eq_dec (List.length (m :: rest)) (List.length replies)) as [Hr | Hr].
    2:{ rewrite chain_mismatch by (now right).
        unfold user_callback. cbn. rewrite requests_app, app_nil_r. exact Hok. }
    destruct (last_expected (first_expected replies)) as [e | tok] eqn:Htok.
    + cbn [chain]. rewrite <- Hp, <- Hr, Nat.eqb_refl. cbn [negb orb].
      rewrite Htok. exact Hok.
    + destruct rest as [|m' rest].
      * rewrite (chain_last_step modem v m patiences replies user_callback w tok);
          try assumption.
        cbv zeta. unfold user_callback. cbn. rewrite !requests_app. cbn.
        rewrite app_nil_r. apply Forall_app. split; [exact Hok|].
        constructor; [apply step_request_floor | constructor].
      * rewrite (chain_intermediate_step modem v m m' rest patiences replies
                   user_callback w tok); try assumption.
        cbv zeta.
        assert (Hok1 : forall b,
                  Forall (fun rq => 100 <= rq_patience rq)
                    (requests (log (emit_event (EvEmit "intermediate" (Some b))
                       (after_send (step_request (m :: m' :: rest) patiences replies 0) w))))).
        { intros b. cbn. rewrite !requests_app. cbn. rewrite app_nil_r.
          apply Forall_app. split; [exact Hok|].
          constructor; [apply step_request_floor | constructor]. }
        destruct (intermediate_correct _ _).
        -- apply IH; [exact Hlive | apply Hok1].
        -- unfold user_callback. cbn. rewrite !requests_app. cbn.
           rewrite !app_nil_r. apply Forall_app. split; [exact Hok|].
           constructor; [apply step_request_floor | constructor].
Qed.

Lemma chain_requests_respect_floor_witness :
  Forall (fun rq => 100 <= rq_patience rq)
    (requests (log (chain obliging IndexJs ["AT"; "ATE0"] [0; 5]
                      [EArr ["AT"; "OK"]; EArr ["ATE0"; "OK"]] user_callback new_GPRS))).
Proof.
  apply (chain_requests_respect_floor obliging IndexJs ["AT"; "ATE0"] [0; 5]
           [EArr ["AT"; "OK"]; EArr ["ATE0"; "OK"]] new_GPRS).
  - reflexivity.
  - constructor.
Defined.

(** ** More on sendSMS *)

(** X11: [sendSMS] with an empty number, and in the later revision with
    any number shorter than 10 characters, calls back at once with the
    error 'Did not specify a 10+ digit number' and [null]; nothing is
    sent. *)
Theorem sendSMS_rejects_bad_number :
  forall modem v number message callback w,
    number = EmptyString \/ (v = Part000 /\ (String.length number < 10)%nat) ->
    sendSMS modem v number message callback w =
    callback (Some (mkError None "Did not specify a 10+ digit number")) DNull w.
Proof.
  intros modem v number message callback w Hbad.
  unfold sendSMS.
  assert (Hguard : sms_guard v number = true).
  { destruct Hbad as [-> | [-> Hshort]].
    - destruct v; reflexivity.
    - cbn [sms_guard]. apply orb_true_iff. right. now apply Nat.ltb_lt. }
  now rewrite Hguard.
Qed.

Lemma sendSMS_rejects_bad_number_witness :
  sendSMS obliging Part000 "12345" "hi" user_callback new_GPRS =
  user_callback (Some (mkError None "Did not specify a 10+ digit number")) DNull new_GPRS.
Proof.
  apply (sendSMS_rejects_bad_number obliging Part000 "12345" "hi" user_callback new_GPRS).
  right. split; [reflexivity | simpl; lia].
Defined.

Lemma sms_body_truthy message : String.eqb (sms_body message) EmptyString = false.
Proof.
  unfold sms_body. destruct (String.eqb message EmptyString) eqn:E; [reflexivity | exact E].
Qed.

(** The run of [sendSMS] up to the reply to the terminating byte, on a
    transport that plays its part until then. *)
Lemma sendSMS_scripted final v number message callback :
  sms_guard v number = false ->
  exists w4,
    sendSMS (sms_script final) v number message callback new_GPRS =
    match data final with
    | [] => throw (TypeError "Cannot read property 'indexOf' of undefined") w4
    | d0 :: _ =>
        if String.prefix "+CMGS: " d0 && elem_eq (data final) 1 "OK"
        then callback None (DIds [parseInt (slice 7 d0)]) w4
        else callback (err final) (DIds [Num (-1)]) w4
    end
    /\ is_live w4 = true
    /\ callbacks (log w4) = []
    /\ map rq_message (requests (log w4)) =
         [MStr "AT+CMGF=1"; MStr ("AT+CMGS=" ++ dquote ++ number ++ dquote);
          MStr (sms_body message); MBuf [0x1a]].
Proof.
  intros Hguard. unfold sendSMS. rewrite Hguard.
  fold (sms_body message).
  pose proof (sms_body_truthy message) as Hbody.
  set (body := sms_body message) in *.
  set (c2 := "AT+CMGS=" ++ dquote ++ number ++ dquote).
  eexists. split; [|split; [|split]].
  - rewrite (chain_intermediate_step (sms_script final) v "AT+CMGF=1" c2 [body]
               [2000; 5000; 5000]
               [EArr ["AT+CMGF=1"; "OK"]; EArr [c2; "> "]; EArr [body; "> "]]
               _ new_GPRS (Some "OK")); try reflexivity.
    cbv zeta. cbn [tl first_expected].
    match goal with |- context [intermediate_correct ?e ?r] =>
      replace (intermediate_correct e r) with true by reflexivity end.
    rewrite (chain_intermediate_step (sms_script final) v c2 body []
               [5000; 5000] [EArr [c2; "> "]; EArr [body; "> "]]
               _ _ (Some "> ")); try reflexivity.
    cbv zeta. cbn [tl first_expected].
    match goal with |- context [intermediate_correct ?e ?r] =>
      replace (intermediate_correct e r) with true end.
    2:{ cbn. now rewrite String.eqb_refl. }
    rewrite (chain_last_step (sms_script final) v body [5000] [EArr [body; "> "]]
               _ _ (Some "> ")); try reflexivity.
    cbv zeta.
    match goal with |- context [sms_script final ?n ?rq] =>
      replace (sms_script final n rq) with (mkReply None [body; "> "]) end.
    2:{ cbn. unfold truthy_msg. rewrite Hbody. reflexivity. }
    cbn [err data]. unfold elem_eq at 1 2. cbn [nth_error].
    rewrite String.eqb_refl. cbn [andb String.eqb Ascii.eqb Bool.eqb].
    rewrite txrx_delegates, postmaster_send_live by reflexivity.
    match goal with |- context [sms_script final ?n ?rq] =>
      change (sms_script final n rq) with final end.
    cbv beta.
    destruct (data final) as [|d0 others]; [reflexivity|].
    destruct (String.prefix "+CMGS: " d0 && elem_eq (d0 :: others) 1 "OK"); reflexivity.
  - reflexivity.
  - reflexivity.
  - cbn. unfold truthy_msg. rewrite Hbody. reflexivity.
Qed.

Lemma prefix_app p s : String.prefix p (p ++ s) = true.
Proof.
  induction p as [|a p IH]; [now destruct s|].
  cbn [String.append String.prefix].
  destruct (ascii_dec a a) as [_ | Hne]; [exact IH | congruence].
Qed.

Lemma slice_app p s : slice (String.length p) (p ++ s) = s.
Proof. induction p as [|a p IH]; [now destruct s | exact IH]. Qed.

(** X13: when the exchange goes well and the reply to the terminating
    byte is a frame '+CMGS: ' followed by any text [s], then 'OK', the
    callback gets no error, even if the Postmaster reported one, and the
    identifier [parseInt(s)]; the four requests are the mode-set command,
    the quoted recipient, the body (the default text for an empty message)
    and the byte 0x1A. *)
Theorem sendSMS_returns_parsed_identifier :
  forall v number message e s others,
    sms_guard v number = false ->
    let w := sendSMS (sms_script (mkReply e (("+CMGS: " ++ s) :: "OK" :: others)))
               v number message user_callback new_GPRS in
    callbacks (log w) = [(None, DIds [parseInt s])]
    /\ state w = Live
    /\ map rq_message (requests (log w)) =
         [MStr "AT+CMGF=1"; MStr ("AT+CMGS=" ++ dquote ++ number ++ dquote);
          MStr (sms_body message); MBuf [0x1a]].
Proof.
  intros v number message e s others Hguard. cbv zeta.
  destruct (sendSMS_scripted (mkReply e (("+CMGS: " ++ s) :: "OK" :: others))
              v number message user_callback Hguard)
    as (w4 & Hrun & Hlive & Hcb & Hreq).
  rewrite Hrun. cbn [data].
  rewrite prefix_app.
  change (elem_eq (("+CMGS: " ++ s) :: "OK" :: others) 1 "OK") with true.
  cbn [andb].
  change 7%nat with (String.length "+CMGS: "). rewrite slice_app.
  unfold user_callback.
  change (log (emit_event ?x w4)) with (log w4 ++ [x])%list.
  change (state (emit_event ?x w4)) with (state w4).
  rewrite callbacks_app, requests_app, Hcb, map_app, Hreq.
  apply is_live_state in Hlive.
  repeat split; try reflexivity. exact Hlive.
Qed.

Lemma sendSMS_returns_parsed_identifier_witness :
  callbacks (log (sendSMS (sms_script (mkReply None (("+CMGS: " ++ "42") :: "OK" :: [])))
                    Part000 "1234567890" EmptyString user_callback new_GPRS))
    = [(None, DIds [parseInt "42"])]
  /\ state (sendSMS (sms_script (mkReply None (("+CMGS: " ++ "42") :: "OK" :: [])))
              Part000 "1234567890" EmptyString user_callback new_GPRS) = Live
  /\ map rq_message
       (requests (log (sendSMS (sms_script (mkReply None (("+CMGS: " ++ "42") :: "OK" :: [])))
                         Part000 "1234567890" EmptyString user_callback new_GPRS))) =
       [MStr "AT+CMGF=1"; MStr ("AT+CMGS=" ++ dquote ++ "1234567890" ++ dquote);
        MStr (sms_body EmptyString); MBuf [0x1a]].
Proof.
  apply (sendSMS_returns_parsed_identifier Part000 "1234567890" EmptyString None "42" []).
  reflexivity.
Defined.

(** X14: when the reply to the terminating byte has a first frame that
    does not start with '+CMGS: ', or a second frame that is not 'OK', the
    callback gets the identifier -1 together with the Postmaster's own
    error for that exchange, which is no error at all when the Postmaster
    reported none. *)
Theorem sendSMS_unconfirmed_gives_sentinel :
  forall v number message final d0 others,
    sms_guard v number = false ->
    data final = d0 :: others ->
    String.prefix "+CMGS: " d0 = false \/ hd_error others <> Some "OK" ->
    let w := sendSMS (sms_script final) v number message user_callback new_GPRS in
    callbacks (log w) = [(err final, DIds [Num (-1)])]
    /\ state w = Live.
Proof.
  intros v number message final d0 others Hguard Hdata Hno. cbv zeta.
  destruct (sendSMS_scripted final v number message user_callback Hguard)
    as (w4 & Hrun & Hlive & Hcb & _).
  rewrite Hrun, Hdata.
  assert (Htest : String.prefix "+CMGS: " d0 && elem_eq (d0 :: others) 1 "OK" = false).
  { apply andb_false_iff. destruct Hno as [H | H]; [now left | right].
    unfold elem_eq. cbn [nth_error]. destruct others as [|x others']; [reflexivity|].
    cbn in H |- *. destruct (String.eqb_spec x "OK") as [-> | _]; [congruence | reflexivity]. }
  rewrite Htest. unfold user_callback.
  change (log (emit_event ?x w4)) with (log w4 ++ [x])%list.
  change (state (emit_event ?x w4)) with (state w4).
  rewrite callbacks_app, Hcb. apply is_live_state in Hlive.
  split; [reflexivity | exact Hlive].
Qed.

Lemma sendSMS_unconfirmed_gives_sentinel_witness :
  callbacks (log (sendSMS (sms_script (mkReply None ["ERROR"])) IndexJs "1234567890" "hi"
                    user_callback new_GPRS))
    = [(None, DIds [Num (-1)])]
  /\ state (sendSMS (sms_script (mkReply None ["ERROR"])) IndexJs "1234567890" "hi"
              user_callback new_GPRS) = Live.
Proof.
  apply (sendSMS_unconfirmed_gives_sentinel IndexJs "1234567890" "hi"
           (mkReply None ["ERROR"]) "ERROR" []).
  - reflexivity.
  - reflexivity.
  - left. reflexivity.
Defined.

(** X15: when the reply to the terminating byte has no frame (a timeout
    with nothing collected, say), [sendSMS] throws a TypeError and its
    callback is never called. *)
Theorem sendSMS_empty_confirmation_throws :
  forall v number message e,
    sms_guard v number = false ->
    let w := sendSMS (sms_script (mkReply e [])) v number message user_callback new_GPRS in
    state w = Threw (TypeError "Cannot read property 'indexOf' of undefined")
    /\ callbacks (log w) = [].
Proof.
  intros v number message e Hguard. cbv zeta.
  destruct (sendSMS_scripted (mkReply e []) v number message user_callback Hguard)
    as (w4 & Hrun & Hlive & Hcb & _).
  rewrite Hrun. cbn [data]. split; [reflexivity | exact Hcb].
Qed.

Lemma sendSMS_empty_confirmation_throws_witness :
  state (sendSMS (sms_script (mkReply (Some (mkError (Some "timeout") "no reply")) []))
           IndexJs "1234567890" "hi" user_callback new_GPRS)
    = Threw (TypeError "Cannot read property 'indexOf' of undefined")
  /\ callbacks (log (sendSMS (sms_script (mkReply (Some (mkError (Some "timeout") "no reply")) []))
                       IndexJs "1234567890" "hi" user_callback new_GPRS)) = [].
Proof.
  apply (sendSMS_empty_confirmation_throws IndexJs "1234567890" "hi"
           (Some (mkError (Some "timeout") "no reply"))).
  reflexivity.
Defined.

(** X12: for every modem, number and message, [sendSMS] either calls the
    callback exactly once, or, when the reply to the terminating byte
    carries no frame at all, throws a TypeError on [data[0].indexOf] and
    never calls back. *)
Theorem sendSMS_calls_back_once_or_throws :
  forall modem v number message,
    let w := sendSMS modem v number message user_callback new_GPRS in
    (state w = Live /\ List.length (callbacks (log w)) = 1%nat)
    \/ (state w = Threw (TypeError "Cannot read property 'indexOf' of undefined")
        /\ callbacks (log w) = []).
Proof.
  intros modem v number message. cbv zeta. unfold sendSMS.
  destruct (sms_guard v number); [left; split; reflexivity|].
  fold (sms_body message). set (body := sms_body message).
  set (c2 := "AT+CMGS=" ++ dquote ++ number ++ dquote).
  rewrite (chain_intermediate_step modem v "AT+CMGF=1" c2 [body]
             [2000; 5000; 5000]
             [EArr ["AT+CMGF=1"; "OK"]; EArr [c2; "> "]; EArr [body; "> "]]
             _ new_GPRS (Some "OK")); try reflexivity.
  cbv zeta. cbn [tl first_expected].
  match goal with |- context [intermediate_correct ?e ?r] =>
    destruct (intermediate_correct e r) end.
  2:{ left; split; reflexivity. }
  rewrite (chain_intermediate_step modem v c2 body []
             [5000; 5000] [EArr [c2; "> "]; EArr [body; "> "]]
             _ _ (Some "> ")); try reflexivity.
  cbv zeta. cbn [tl first_expected].
  match goal with |- context [intermediate_correct ?e ?r] =>
    destruct (intermediate_correct e r) end.
  2:{ left; split; reflexivity. }
  rewrite (chain_last_step modem v body [5000] [EArr [body; "> "]]
             _ _ (Some "> ")); try reflexivity.
  cbv zeta.
  match goal with |- context [err ?r] => destruct (err r) as [e3|] end.
  { left; split; reflexivity. }
  match goal with |- context [elem_eq ?a 0 body && elem_eq ?b 1 ?c] =>
    destruct (elem_eq a 0 body && elem_eq b 1 c) end.
  2:{ left; split; reflexivity. }
  rewrite txrx_delegates, postmaster_send_live by reflexivity.
  cbv beta.
  match goal with |- context [data ?r] => destruct (data r) as [|d0 others] eqn:Hd end.
  { right; split; reflexivity. }
  match goal with |- context [if ?c then _ else _] => destruct c end;
    left; split; reflexivity.
Qed.

(** ** parseInt *)

Lemma leading_digits_acc d :
  forall p,
    leading_digits (NilEmpty.string_of_uint d) (Some (Zpos p)) =
    Some (Zpos (Pos.of_uint_acc d p)).
Proof.
  induction d; intros p; cbn [NilEmpty.string_of_uint Pos.of_uint_acc];
    try reflexivity;
    (cbn [leading_digits]; 
     match goal with |- context [digit_of ?c] =>
       let x := eval cbv in (digit_of c) in change (digit_of c) with x end;
     cbv iota; rewrite <- IHd; f_equal; f_equal; lia).
Qed.

Lemma leading_digits_zero d :
  leading_digits (NilEmpty.string_of_uint d) (Some 0) = Some (Z.of_N (Pos.of_uint d)).
Proof.
  induction d; cbn [NilEmpty.string_of_uint Pos.of_uint];
    try reflexivity;
    (cbn [leading_digits];
     match goal with |- context [digit_of ?c] =>
       let x := eval cbv in (digit_of c) in change (digit_of c) with x end;
     cbv iota; cbn [Z.mul Z.add Z.of_N];
     first [exact IHd | apply leading_digits_acc]).
Qed.

Lemma parseInt_unsigned d :
  d <> Decimal.Nil ->
  parseInt (NilEmpty.string_of_uint d) = js_integer false (Z.of_N (Pos.of_uint d)).
Proof.
  intros Hd.
  pose proof (leading_digits_zero d) as Hz.
  destruct d; try congruence; unfold parseInt;
    cbn [NilEmpty.string_of_uint skip_spaces] in *;
    match goal with |- context [is_space ?c] =>
      let x := eval cbv in (is_space c) in change (is_space c) with x end;
    cbv iota;
    cbn [leading_digits] in *;
    match goal with |- context [digit_of ?c] =>
      let x := eval cbv in (digit_of c) in change (digit_of c) with x in * end;
    cbv iota in *; cbn [Z.mul Z.add] in *; rewrite Hz; reflexivity.
Qed.

Lemma parseInt_negative d :
  d <> Decimal.Nil ->
  parseInt (String "-" (NilEmpty.string_of_uint d))
  = js_integer true (Z.of_N (Pos.of_uint d)).
Proof.
  intros Hd.
  pose proof (leading_digits_zero d) as Hz.
  unfold parseInt. cbn [skip_spaces].
  change (is_space "-") with false. cbv iota.
  change (match String "-" (NilEmpty.string_of_uint d) with
          | String "-" s' => (true, s')
          | String "+" s' => (false, s')
          | _ => (false, String "-" (NilEmpty.string_of_uint d))
          end) with (true, NilEmpty.string_of_uint d).
  cbv iota beta.
  destruct d; try congruence;
    cbn [NilEmpty.string_of_uint leading_digits] in *;
    match goal with |- context [digit_of ?c] =>
      let x := eval cbv in (digit_of c) in change (digit_of c) with x in * end;
    cbv iota in *; cbn [Z.mul Z.add] in *; rewrite Hz; reflexivity.
Qed.

Lemma string_of_uint_nonnil d :
  d <> Decimal.Nil -> NilZero.string_of_uint d = NilEmpty.string_of_uint d.
Proof. destruct d; [congruence | reflexivity..]. Qed.

(** [parseInt] reads back the decimal text of an integer that a double
    holds exactly. *)
Lemma parseInt_string_of_Z :
  forall z, Z.abs z <= max_exact -> parseInt (string_of_Z z) = Num z.
Proof.
  intros [|p|p] Hz; unfold string_of_Z; cbn [Z.to_int NilZero.string_of_int].
  - reflexivity.
  - rewrite string_of_uint_nonnil by apply DecimalPos.Unsigned.to_uint_nonnil.
    rewrite parseInt_unsigned by apply DecimalPos.Unsigned.to_uint_nonnil.
    rewrite DecimalPos.Unsigned.of_to. unfold js_integer.
    cbn [andb Z.of_N]. apply Z.leb_le in Hz. now rewrite Hz.
  - rewrite string_of_uint_nonnil by apply DecimalPos.Unsigned.to_uint_nonnil.
    rewrite parseInt_negative by apply DecimalPos.Unsigned.to_uint_nonnil.
    rewrite DecimalPos.Unsigned.of_to. unfold js_integer.
    cbn [andb Z.of_N Z.eqb Z.opp]. apply Z.leb_le in Hz. now rewrite Hz.
Qed.

(** [parseInt] of a text whose first character is neither white space, a
    sign nor a digit is NaN, whatever follows. *)
Lemma parseInt_without_digits :
  forall c s,
    is_space c = false ->
    digit_of c = None ->
    c <> "-"%char ->
    c <> "+"%char ->
    parseInt (String c s) = NaN.
Proof.
  intros c s Hspace Hdigit Hminus Hplus.
  unfold parseInt. cbn [skip_spaces]. rewrite Hspace.
  assert (Hsign : match String c s with
                  | String "-" s' => (true, s')
                  | String "+" s' => (false, s')
                  | _ => (false, String c s)
                  end = (false, String c s)).
  { destruct c as [[] [] [] [] [] [] [] []]; try reflexivity; congruence. }
  rewrite Hsign. cbn [leading_digits]. now rewrite Hdigit.
Qed.


(** X16: the identifier round trip of [sendSMS]: when the exchange goes
    well and the confirmation frame is '+CMGS: ' followed by the decimal
    text of an integer [n] of magnitude at most 2^53, the range in which a
    double holds every integer, then 'OK', the callback gets no error and
    the identifier [n] itself. *)
Theorem sendSMS_identifier_round_trip :
  forall v number message e n others,
    sms_guard v number = false ->
    Z.abs n <= 9007199254740992 ->
    let w := sendSMS (sms_script (mkReply e (("+CMGS: " ++ string_of_Z n) :: "OK" :: others)))
               v number message user_callback new_GPRS in
    callbacks (log w) = [(None, DIds [Num n])] /\ state w = Live.
Proof.
  intros v number message e n others Hguard Hn. cbv zeta.
  destruct (sendSMS_scripted (mkReply e (("+CMGS: " ++ string_of_Z n) :: "OK" :: others))
              v number message user_callback Hguard)
    as (w4 & Hrun & Hlive & Hcb & _).
  rewrite Hrun. cbn [data].
  rewrite prefix_app.
  change (elem_eq (("+CMGS: " ++ string_of_Z n) :: "OK" :: others) 1 "OK") with true.
  cbn [andb].
  change 7%nat with (String.length "+CMGS: ").
  rewrite slice_app, (parseInt_string_of_Z n Hn).
  unfold user_callback.
  change (log (emit_event ?x w4)) with (log w4 ++ [x])%list.
  change (state (emit_event ?x w4)) with (state w4).
  rewrite callbacks_app, Hcb. apply is_live_state in Hlive.
  split; [reflexivity | exact Hlive].
Qed.

Lemma sendSMS_identifier_round_trip_witness :
  callbacks (log (sendSMS (sms_script (mkReply None (("+CMGS: " ++ string_of_Z 215) :: "OK" :: [])))
                    IndexJs "1234567890" "hi" user_callback new_GPRS))
    = [(None, DIds [Num 215])]
  /\ state (sendSMS (sms_script (mkReply None (("+CMGS: " ++ string_of_Z 215) :: "OK" :: [])))
              IndexJs "1234567890" "hi" user_callback new_GPRS) = Live.
Proof.
  apply (sendSMS_identifier_round_trip IndexJs "1234567890" "hi" None 215 []).
  - reflexivity.
  - simpl. lia.
Defined.

(** X17: when the exchange goes well but the text that follows '+CMGS: '
    in the confirmation frame starts with a character that is neither
    white space (TAB, LF, VT, FF, CR, the space, the no-break space), a
    sign nor a digit, [sendSMS] still reports success: the callback gets
    no error and the identifier NaN. *)
Theorem sendSMS_identifier_not_a_number :
  forall v number message e c s others,
    sms_guard v number = false ->
    is_space c = false ->
    digit_of c = None ->
    c <> "-"%char ->
    c <> "+"%char ->
    let w := sendSMS (sms_script (mkReply e (("+CMGS: " ++ String c s) :: "OK" :: others)))
               v number message user_callback new_GPRS in
    callbacks (log w) = [(None, DIds [NaN])] /\ state w = Live.
Proof.
  intros v number message e c s others Hguard Hspace Hdigit Hminus Hplus. cbv zeta.
  destruct (sendSMS_scripted (mkReply e (("+CMGS: " ++ String c s) :: "OK" :: others))
              v number message user_callback Hguard)
    as (w4 & Hrun & Hlive & Hcb & _).
  rewrite Hrun. cbn [data].
  rewrite prefix_app.
  change (elem_eq (("+CMGS: " ++ String c s) :: "OK" :: others) 1 "OK") with true.
  cbn [andb].
  change 7%nat with (String.length "+CMGS: ").
  rewrite slice_app, (parseInt_without_digits c s Hspace Hdigit Hminus Hplus).
  unfold user_callback.
  change (log (emit_event ?x w4)) with (log w4 ++ [x])%list.
  change (state (emit_event ?x w4)) with (state w4).
  rewrite callbacks_app, Hcb. apply is_live_state in Hlive.
  split; [reflexivity | exact Hlive].
Qed.

Lemma sendSMS_identifier_not_a_number_witness :
  callbacks (log (sendSMS (sms_script (mkReply None (("+CMGS: " ++ String "x" "7") :: "OK" :: [])))
                    Part000 "1234567890" "hi" user_callback new_GPRS))
    = [(None, DIds [NaN])]
  /\ state (sendSMS (sms_script (mkReply None (("+CMGS: " ++ String "x" "7") :: "OK" :: [])))
              Part000 "1234567890" "hi" user_callback new_GPRS) = Live.
Proof.
  apply (sendSMS_identifier_not_a_number Part000 "1234567890" "hi" None "x"%char "7" []).
  - reflexivity.
  - reflexivity.
  - reflexivity.
  - discriminate.
  - discriminate.
Defined.

(** ** More on voice calls *)

(** X18: [dial] during a call, or with a number of fewer than 10
    characters, calls back at once with its error ('Currently in a call'
    taking precedence) and an empty array; nothing is sent and the call
    flag is left as it was. *)
Theorem dial_rejects :
  forall modem number callback w,
    inACall w = true \/ (String.length number < 10)%nat ->
    dial modem number callback w =
    callback
      (Some (mkError None (if inACall w then "Currently in a call"
                           else "Number must be at least 10 digits")))
      (DFrames []) w.
Proof.
  intros modem number callback w Hbad. unfold dial.
  destruct (inACall w); [reflexivity|].
  destruct Hbad as [H | Hshort]; [discriminate|].
  apply Nat.ltb_lt in Hshort. rewrite Hshort, orb_true_r. reflexivity.
Qed.

Lemma dial_rejects_witness :
  dial obliging "123456789" user_callback new_GPRS =
  user_callback (Some (mkError None "Number must be at least 10 digits")) (DFrames [])
    new_GPRS.
Proof.
  apply (dial_rejects obliging "123456789" user_callback new_GPRS).
  right. simpl. lia.
Defined.

Lemma long_number_nonempty number :
  (10 <= String.length number)%nat ->
  String.eqb number EmptyString || (String.length number <? 10)%nat = false.
Proof.
  intros Hlen. apply orb_false_iff. split.
  - destruct number; [cbn in Hlen; lia | reflexivity].
  - apply Nat.ltb_ge. exact Hlen.
Qed.

(** X19: [dial] outside a call with a number of at least 10 characters
    sends exactly 'ATD' + number + ';' with a patience of one year
    (31536000000 ms) and the default patterns, and hands the reply to the
    callback in a world where the GPRS object's flag is still set. *)
Theorem dial_transmits :
  forall modem number callback w,
    is_live w = true ->
    inACall w = false ->
    (10 <= String.length number)%nat ->
    let rq := mkRequest (MStr ("ATD" ++ number ++ ";")) 31536000000 None in
    let r := modem (sent w) rq in
    exists w0,
      dial modem number callback w = callback (err r) (DFrames (data r)) w0
      /\ is_live w0 = true
      /\ inACall w0 = true
      /\ callee_inACall w0 = Some false
      /\ sent w0 = S (sent w)
      /\ log w0 = (log w ++ [EvSend rq])%list.
Proof.
  intros modem number callback w Hlive Hidle Hlen rq r.
  unfold dial. rewrite Hidle, (long_number_nonempty number Hlen).
  rewrite seq_live by exact Hlive.
  rewrite txrx_delegates, postmaster_send_live by exact Hlive.
  change (txrx_request (MStr ("ATD" ++ number ++ ";")) (1000 * 60 * 60 * 24 * 365) None)
    with rq.
  cbv beta. rewrite seq_live by exact Hlive.
  eexists. split; [reflexivity|]. split; [exact Hlive|]. repeat split.
Qed.

Lemma dial_transmits_witness :
  exists w0,
    dial obliging "1234567890" user_callback new_GPRS =
    user_callback None (DFrames ["ATD1234567890;"; "OK"]) w0
    /\ is_live w0 = true
    /\ inACall w0 = true
    /\ callee_inACall w0 = Some false
    /\ sent w0 = 1%nat
    /\ log w0 = (log new_GPRS
                   ++ [EvSend (mkRequest (MStr ("ATD" ++ "1234567890" ++ ";"))
                                 31536000000 None)])%list.
Proof.
  apply (dial_transmits obliging "1234567890" user_callback new_GPRS).
  - reflexivity.
  - reflexivity.
  - simpl. lia.
Defined.

(** X20: [answerCall] sends 'ATA' with patience 10000 and hands the reply
    to the callback; the call flag is set when the reply carries no error
    and is left as it was otherwise. *)
Theorem answerCall_sets_flag_on_success :
  forall modem callback w,
    is_live w = true ->
    let rq := mkRequest (MStr "ATA") 10000 None in
    let r := modem (sent w) rq in
    exists w0,
      answerCall modem callback w = callback (err r) (DFrames (data r)) w0
      /\ inACall w0 = match err r with None => true | Some _ => inACall w end
      /\ log w0 = (log w ++ [EvSend rq])%list.
Proof.
  intros modem callback w Hlive rq r.
  unfold answerCall.
  rewrite txrx_delegates, postmaster_send_live by exact Hlive.
  change (txrx_request (MStr "ATA") 10000 None) with rq. cbv beta. fold r.
  rewrite seq_live.
  - eexists. split; [reflexivity|].
    destruct (err r); split; reflexivity.
  - destruct (err r); exact Hlive.
Qed.

Lemma answerCall_sets_flag_on_success_witness :
  exists w0,
    answerCall silent user_callback new_GPRS =
    user_callback (Some (mkError (Some "timeout") "no reply")) (DFrames []) w0
    /\ inACall w0 = false
    /\ log w0 = (log new_GPRS ++ [EvSend (mkRequest (MStr "ATA") 10000 None)])%list.
Proof.
  apply (answerCall_sets_flag_on_success silent user_callback new_GPRS).
  reflexivity.
Defined.

(** X21: [hangUp] sends 'ATH' with patience 100000 and clears the call
    flag of the GPRS object before it calls back, whether or not the reply
    carries an error. *)
Theorem hangUp_resets_call_state :
  forall modem callback w,
    is_live w = true ->
    let rq := mkRequest (MStr "ATH") 100000 None in
    let r := modem (sent w) rq in
    exists w0,
      hangUp modem callback w = callback (err r) (DFrames (data r)) w0
      /\ is_live w0 = true
      /\ inACall w0 = false
      /\ sent w0 = S (sent w)
      /\ log w0 = (log w ++ [EvSend rq])%list.
Proof.
  intros modem callback w Hlive rq r.
  unfold hangUp.
  rewrite txrx_delegates, postmaster_send_live by exact Hlive.
  change (txrx_request (MStr "ATH") 100000 None) with rq. cbv beta. fold r.
  rewrite seq_live by exact Hlive.
  eexists. split; [reflexivity|]. split; [exact Hlive|]. repeat split.
Qed.

Lemma hangUp_resets_call_state_witness :
  exists w0,
    hangUp silent user_callback new_GPRS =
    user_callback (Some (mkError (Some "timeout") "no reply")) (DFrames []) w0
    /\ is_live w0 = true
    /\ inACall w0 = false
    /\ sent w0 = 1%nat
    /\ log w0 = (log new_GPRS ++ [EvSend (mkRequest (MStr "ATH") 100000 None)])%list.
Proof.
  apply (hangUp_resets_call_state silent user_callback new_GPRS).
  reflexivity.
Defined.

(** X22: after a [dial] has resolved, a [hangUp] puts the GPRS object
    out of the call again: a second [dial] made from the callback of
    [hangUp] is transmitted, not refused, and the caller's callback gets the
    modem's reply to it. *)
Theorem hangUp_makes_dial_possible_again :
  forall modem number,
    (10 <= String.length number)%nat ->
    let w := dial modem number
               (fun _ _ => hangUp modem (fun _ _ => dial modem number user_callback))
               new_GPRS in
    let rq := mkRequest (MStr ("ATD" ++ number ++ ";")) 31536000000 None in
    requests (log w) = [rq; mkRequest (MStr "ATH") 100000 None; rq]
    /\ callbacks (log w) = [(err (modem 2%nat rq), DFrames (data (modem 2%nat rq)))].
Proof.
  intros modem number Hlen. cbv zeta.
  destruct (dial_transmits modem number
              (fun _ _ => hangUp modem (fun _ _ => dial modem number user_callback))
              new_GPRS eq_refl eq_refl Hlen) as (w0 & Hrun & Hl0 & _ & _ & Hsent0 & Hlog0).
  rewrite Hrun. clear Hrun.
  assert (Hs0 : exists w1, hangUp modem (fun _ _ => dial modem number user_callback) w0
                           = dial modem number user_callback w1
                           /\ is_live w1 = true /\ inACall w1 = false
                           /\ sent w1 = S (sent w0)
                           /\ log w1 = (log w0 ++ [EvSend (mkRequest (MStr "ATH") 100000 None)])%list).
  { destruct (hangUp_resets_call_state modem
                (fun _ _ => dial modem number user_callback) w0 Hl0)
      as (w1 & Hrun1 & H1). exists w1. split; [exact Hrun1 | exact H1]. }
  destruct Hs0 as (w1 & Hrun1 & Hl1 & Hidle1 & Hsent1 & Hlog1).
  rewrite Hrun1.
  destruct (dial_transmits modem number user_callback w1 Hl1 Hidle1 Hlen)
    as (w2 & Hrun2 & _ & _ & _ & _ & Hlog2).
  rewrite Hrun2. unfold user_callback.
  change (log (emit_event ?x w2)) with (log w2 ++ [x])%list.
  rewrite Hlog2, Hlog1, Hlog0, Hsent1, Hsent0.
  change (log new_GPRS) with (@nil event). change (sent new_GPRS) with 0%nat.
  split; reflexivity.
Qed.

Lemma hangUp_makes_dial_possible_again_witness :
  requests (log (dial obliging "1234567890"
                   (fun _ _ => hangUp obliging
                                 (fun _ _ => dial obliging "1234567890" user_callback))
                   new_GPRS)) =
    [mkRequest (MStr ("ATD" ++ "1234567890" ++ ";")) 31536000000 None;
     mkRequest (MStr "ATH") 100000 None;
     mkRequest (MStr ("ATD" ++ "1234567890" ++ ";")) 31536000000 None]
  /\ callbacks (log (dial obliging "1234567890"
                       (fun _ _ => hangUp obliging
                                     (fun _ _ => dial obliging "1234567890" user_callback))
                       new_GPRS)) =
       [(err (obliging 2%nat (mkRequest (MStr ("ATD" ++ "1234567890" ++ ";")) 31536000000 None)),
         DFrames (data (obliging 2%nat
                          (mkRequest (MStr ("ATD" ++ "1234567890" ++ ";")) 31536000000 None))))].
Proof.
  apply (hangUp_makes_dial_possible_again obliging "1234567890").
  simpl. lia.
Defined.

(** ** More on the notification registry *)

Lemma length_set_property k x o :
  (List.length o <= List.length (set_property k x o))%nat.
Proof.
  induction o as [|[k' y] o IH]; cbn [set_property List.length]; [lia|].
  destruct (String.eqb k k'); cbn [List.length]; lia.
Qed.

Lemma length_set_property_new k x o :
  get_property k o = None ->
  List.length (set_property k x o) = S (List.length o).
Proof.
  induction o as [|[k' y] o IH]; cbn [set_property get_property List.length]; [reflexivity|].
  destruct (String.eqb k k'); [discriminate|].
  intros H. cbn [List.length]. now rewrite IH.
Qed.

Lemma pairs_loop :
  forall pairs w,
    is_live w = true ->
    let w' := forEach pairs
                (fun p w0 => set_notificationCallbacks
                   (set_property (fst p) (VFun (snd p)) (notificationCallbacks w0)) w0) w in
    is_live w' = true
    /\ notificationCallbacks w' = assign_all pairs (notificationCallbacks w)
    /\ listeners w' = listeners w
    /\ log w' = log w.
Proof.
  induction pairs as [|p pairs IH]; intros w Hlive; cbv zeta.
  - repeat split. exact Hlive.
  - cbn [forEach]. rewrite seq_live by exact Hlive.
    destruct (IH (set_notificationCallbacks
                    (set_property (fst p) (VFun (snd p)) (notificationCallbacks w)) w) Hlive)
      as (Hl & Hn & Hs & Hg).
    split; [exact Hl|]. split; [exact Hn|]. split; [exact Hs | exact Hg].
Qed.

Lemma wildcards_loop :
  forall fs w old,
    is_live w = true ->
    get_property "_everyTime" (notificationCallbacks w) = Some (VArr old) ->
    let w' := forEach fs
                (fun newKey w0 =>
                   match get_property "_everyTime" (notificationCallbacks w0) with
                   | Some (VArr old0) =>
                       set_notificationCallbacks
                         (set_property "_everyTime" (VArr (old0 ++ [newKey]))
                            (notificationCallbacks w0)) w0
                   | _ => throw (TypeError "notificationCallbacks._everyTime.push is not a function") w0
                   end) w in
    is_live w' = true
    /\ get_property "_everyTime" (notificationCallbacks w') = Some (VArr (old ++ fs))
    /\ (forall k, k <> "_everyTime" ->
          get_property k (notificationCallbacks w') = get_property k (notificationCallbacks w))
    /\ (List.length (notificationCallbacks w) <= List.length (notificationCallbacks w'))%nat
    /\ listeners w' = listeners w
    /\ log w' = log w.
Proof.
  induction fs as [|f fs IH]; intros w old Hlive Hold; cbv zeta.
  - cbn [forEach]. rewrite app_nil_r. repeat split; try assumption. unfold ret. lia.
  - cbn [forEach].
    set (w1 := set_notificationCallbacks
                 (set_property "_everyTime" (VArr (old ++ [f])) (notificationCallbacks w)) w).
    assert (Hl1 : is_live w1 = true) by exact Hlive.
    assert (Hold1 : get_property "_everyTime" (notificationCallbacks w1)
                    = Some (VArr (old ++ [f]))).
    { subst w1. cbn. rewrite get_set_property. reflexivity. }
    rewrite seq_live; rewrite Hold; fold w1; try exact Hl1.
    destruct (IH w1 (old ++ [f])%list Hl1 Hold1) as (Hl & Hg & Hk & Hlen & Hs & Hlog).
    split; [exact Hl|]. split; [now rewrite Hg, <- app_assoc|].
    split; [|split; [|split; [exact Hs | exact Hlog]]].
    + intros k Hne. rewrite (Hk k Hne). subst w1. cbn. rewrite get_set_property.
      destruct (String.eqb_spec k "_everyTime"); [congruence | reflexivity].
    + etransitivity; [|exact Hlen]. subst w1. cbn. apply length_set_property.
Qed.

Lemma assign_all_other pairs :
  forall o k, ~ In k (map fst pairs) ->
    get_property k (assign_all pairs o) = get_property k o.
Proof.
  induction pairs as [|p pairs IH]; intros o k Hk; [reflexivity|].
  cbn [assign_all fold_left]. fold (assign_all pairs (set_property (fst p) (VFun (snd p)) o)).
  rewrite IH by (intros H; apply Hk; now right).
  rewrite get_set_property.
  destruct (String.eqb_spec k (fst p)) as [-> | _]; [|reflexivity].
  exfalso. apply Hk. now left.
Qed.

Lemma assign_all_registered pairs :
  forall o k h, NoDup (map fst pairs) -> In (k, h) pairs ->
    get_property k (assign_all pairs o) = Some (VFun h).
Proof.
  induction pairs as [|p pairs IH]; intros o k h Hnd Hin; [contradiction|].
  cbn [map] in Hnd. inversion Hnd as [|? ? Hnotin Hnd']; subst.
  cbn [assign_all fold_left]. fold (assign_all pairs (set_property (fst p) (VFun (snd p)) o)).
  destruct Hin as [-> | Hin].
  - rewrite assign_all_other by exact Hnotin.
    rewrite get_set_property. cbn [fst snd]. now rewrite String.eqb_refl.
  - now apply IH.
Qed.

Lemma length_assign_all pairs :
  forall o, (List.length o <= List.length (assign_all pairs o))%nat.
Proof.
  induction pairs as [|p pairs IH]; intros o; [cbn; lia|].
  cbn [assign_all fold_left]. fold (assign_all pairs (set_property (fst p) (VFun (snd p)) o)).
  etransitivity; [apply (length_set_property (fst p) (VFun (snd p)))|apply IH].
Qed.

(** What a call of [notifyOn] leaves behind. *)
Lemma notifyOn_effect pairs everyTime w old :
  is_live w = true ->
  get_property "_everyTime" (notificationCallbacks w) = Some (VArr old) ->
  (forall p, In p pairs -> fst p <> "_everyTime") ->
  let w' := notifyOn pairs everyTime w in
  is_live w' = true
  /\ get_property "_everyTime" (notificationCallbacks w') =
       Some (VArr (old ++ match everyTime with Some fs => fs | None => [] end))
  /\ (forall k, k <> "_everyTime" ->
        get_property k (notificationCallbacks w') =
        get_property k (assign_all pairs (notificationCallbacks w)))
  /\ (List.length (assign_all pairs (notificationCallbacks w))
        <= List.length (notificationCallbacks w'))%nat
  /\ log w' = (if (List.length (notificationCallbacks w) <? 2)%nat
               then log w ++ [EvSubscribe] else log w)%list.
Proof.
  intros Hlive Hold Hpairs. cbv zeta. unfold notifyOn.
  set (first := fun w0 : World =>
                  if (List.length (Object_keys (notificationCallbacks w0)) <? 2)%nat
                  then notify w0 else w0).
  assert (H1 : is_live (first w) = true
               /\ notificationCallbacks (first w) = notificationCallbacks w
               /\ log (first w) = (if (List.length (notificationCallbacks w) <? 2)%nat
                                   then log w ++ [EvSubscribe] else log w)%list).
  { unfold first, Object_keys. rewrite length_map.
    destruct (_ <? _)%nat; [|split; [assumption | split; reflexivity]].
    unfold notify. rewrite seq_live by exact Hlive.
    split; [assumption | split; reflexivity]. }
  destruct H1 as (Hl1 & Hn1 & Hlog1).
  rewrite seq_live by exact Hl1.
  destruct (pairs_loop pairs (first w) Hl1) as (Hl2 & Hn2 & _ & Hlog2).
  rewrite seq_live by exact Hl2.
  set (w2 := forEach pairs _ (first w)) in *.
  rewrite Hn1 in Hn2.
  assert (Hold2 : get_property "_everyTime" (notificationCallbacks w2) = Some (VArr old)).
  { rewrite Hn2, assign_all_other; [exact Hold|].
    intros Hin. apply in_map_iff in Hin. destruct Hin as (p & Hp & Hin).
    now apply (Hpairs p Hin). }
  destruct everyTime as [fs|].
  - destruct (wildcards_loop fs w2 old Hl2 Hold2) as (Hl3 & Hg3 & Hk3 & Hlen3 & _ & Hlog3).
    split; [exact Hl3|]. split; [exact Hg3|]. split; [|split].
    + intros k Hk. now rewrite (Hk3 k Hk), Hn2.
    + now rewrite <- Hn2.
    + now rewrite Hlog3, Hlog2.
  - unfold ret. split; [exact Hl2|]. split; [now rewrite app_nil_r|]. split; [|split].
    + intros k Hk. now rewrite Hn2.
    + rewrite Hn2. lia.
    + now rewrite Hlog2.
Qed.

(** X23: after [notifyOn(pairs, everyTime)] with distinct headers none of
    which is the reserved key, each header of [pairs] looks up its new
    handler (replacing an older one), every other header looks up what it
    did before, and the wildcard list is the old one followed by
    [everyTime] in order; the call does not throw. *)
Theorem notifyOn_registers :
  forall pairs everyTime w old,
    is_live w = true ->
    get_property "_everyTime" (notificationCallbacks w) = Some (VArr old) ->
    (forall p, In p pairs -> fst p <> "_everyTime") ->
    NoDup (map fst pairs) ->
    let w' := notifyOn pairs everyTime w in
    state w' = Live
    /\ (forall k h, In (k, h) pairs ->
          get_property k (notificationCallbacks w') = Some (VFun h))
    /\ (forall k, ~ In k (map fst pairs) -> k <> "_everyTime" ->
          get_property k (notificationCallbacks w') =
          get_property k (notificationCallbacks w))
    /\ get_property "_everyTime" (notificationCallbacks w') =
         Some (VArr (old ++ match everyTime with Some fs => fs | None => [] end)).
Proof.
  intros pairs everyTime w old Hlive Hold Hpairs Hnd. cbv zeta.
  destruct (notifyOn_effect pairs everyTime w old Hlive Hold Hpairs)
    as (Hl & Hg & Hk & _ & _).
  split; [now apply is_live_state|]. split; [|split; [|exact Hg]].
  - intros k h Hin. rewrite Hk.
    + now apply assign_all_registered.
    + apply (Hpairs (k, h) Hin).
  - intros k Hnot Hne. rewrite (Hk k Hne). now apply assign_all_other.
Qed.

Lemma notifyOn_registers_witness :
  state (notifyOn [("+CMT", 7%nat)] (Some [9%nat]) registered) = Live
  /\ (forall k h, In (k, h) [("+CMT", 7%nat)] ->
        get_property k (notificationCallbacks (notifyOn [("+CMT", 7%nat)] (Some [9%nat]) registered))
        = Some (VFun h))
  /\ (forall k, ~ In k (map fst [("+CMT", 7%nat)]) -> k <> "_everyTime" ->
        get_property k (notificationCallbacks (notifyOn [("+CMT", 7%nat)] (Some [9%nat]) registered))
        = get_property k (notificationCallbacks registered))
  /\ get_property "_everyTime"
       (notificationCallbacks (notifyOn [("+CMT", 7%nat)] (Some [9%nat]) registered))
     = Some (VArr ([1%nat; 2%nat] ++ [9%nat])).
Proof.
  apply (notifyOn_registers [("+CMT", 7%nat)] (Some [9%nat]) registered [1%nat; 2%nat]).
  - reflexivity.
  - reflexivity.
  - intros p [<- | []]. discriminate.
  - repeat constructor. intros [].
Defined.

(** Once the registry holds a header, further registrations leave the
    subscription alone. *)
Lemma register_all_no_subscription :
  forall calls w old,
    is_live w = true ->
    get_property "_everyTime" (notificationCallbacks w) = Some (VArr old) ->
    (2 <= List.length (notificationCallbacks w))%nat ->
    (forall c p, In c calls -> In p (fst c) -> fst p <> "_everyTime") ->
    let w' := register_all calls w in
    is_live w' = true /\ listeners w' = listeners w /\ log w' = log w.
Proof.
  induction calls as [|c calls IH]; intros w old Hlive Hold Hlen Hkeys; cbv zeta.
  - repeat split. exact Hlive.
  - unfold register_all. cbn [forEach]. fold (register_all calls).
    destruct (notifyOn_effect (fst c) (snd c) w old Hlive Hold)
      as (Hl1 & Hg1 & _ & Hlen1 & Hlog1).
    { intros p Hp. apply (Hkeys c p); [now left | exact Hp]. }
    pose proof (notifyOn_listeners (fst c) (snd c) w Hlive) as Hs1.
    unfold Object_keys in Hs1. rewrite length_map in Hs1.
    replace (List.length (notificationCallbacks w) <? 2)%nat with false in *
      by (symmetry; apply Nat.ltb_ge; exact Hlen).
    rewrite seq_live by exact Hl1.
    destruct (IH (notifyOn (fst c) (snd c) w) _ Hl1 Hg1) as (Hl2 & Hs2 & Hlog2).
    + pose proof (length_assign_all (fst c) (notificationCallbacks w)). lia.
    + intros c' p Hc' Hp. apply (Hkeys c' p); [now right | exact Hp].
    + split; [exact Hl2|]. split; [now rewrite Hs2, Hs1 | now rewrite Hlog2, Hlog1].
Qed.

(** X24: on a fresh GPRS object, when no header registered is the
    reserved key '_everyTime', a first registration that holds at least
    one header subscribes to the unsolicited channel, and no series of
    later registrations, with or without headers, subscribes again: there
    is one listener and one subscription logged. *)
Theorem notifyOn_header_subscribes_once :
  forall k h pairs everyTime calls,
    k <> "_everyTime" ->
    (forall p, In p pairs -> fst p <> "_everyTime") ->
    (forall c p, In c calls -> In p (fst c) -> fst p <> "_everyTime") ->
    let w := (notifyOn ((k, h) :: pairs) everyTime ;; register_all calls) new_GPRS in
    state w = Live /\ listeners w = 1%nat /\ log w = [EvSubscribe].
Proof.
  intros k h pairs everyTime calls Hk Hpairs Hcalls. cbv zeta.
  destruct (notifyOn_effect ((k, h) :: pairs) everyTime new_GPRS [] eq_refl eq_refl)
    as (Hl1 & Hg1 & _ & Hlen1 & Hlog1).
  { intros p [<- | Hp]; [exact Hk | now apply Hpairs]. }
  pose proof (notifyOn_listeners ((k, h) :: pairs) everyTime new_GPRS eq_refl) as Hs1.
  change (List.length (Object_keys (notificationCallbacks new_GPRS)) <? 2)%nat
    with true in Hs1.
  change (List.length (notificationCallbacks new_GPRS) <? 2)%nat with true in Hlog1.
  rewrite seq_live by exact Hl1.
  destruct (register_all_no_subscription calls
              (notifyOn ((k, h) :: pairs) everyTime new_GPRS) _ Hl1 Hg1)
    as (Hl2 & Hs2 & Hlog2).
  - etransitivity; [|exact Hlen1].
    cbn [assign_all fold_left fst snd].
    fold (assign_all pairs
            (set_property k (VFun h) (notificationCallbacks new_GPRS))).
    etransitivity; [|apply length_assign_all].
    rewrite length_set_property_new; [cbn; lia|].
    cbn. destruct (String.eqb_spec k "_everyTime"); [congruence | reflexivity].
  - exact Hcalls.
  - split; [now apply is_live_state|].
    split; [now rewrite Hs2, Hs1 | now rewrite Hlog2, Hlog1].
Qed.

Lemma notifyOn_header_subscribes_once_witness :
  state ((notifyOn [("+CMT", 3%nat)] None ;;
          register_all [([], Some [1%nat]); ([("RING", 4%nat)], Some [2%nat])]) new_GPRS) = Live
  /\ listeners ((notifyOn [("+CMT", 3%nat)] None ;;
                 register_all [([], Some [1%nat]); ([("RING", 4%nat)], Some [2%nat])]) new_GPRS)
     = 1%nat
  /\ log ((notifyOn [("+CMT", 3%nat)] None ;;
           register_all [([], Some [1%nat]); ([("RING", 4%nat)], Some [2%nat])]) new_GPRS)
     = [EvSubscribe].
Proof.
  apply (notifyOn_header_subscribes_once "+CMT" 3%nat [] None
           [([], Some [1%nat]); ([("RING", 4%nat)], Some [2%nat])]).
  - discriminate.
  - intros p [].
  - intros c p [<- | [<- | []]] Hp.
    + destruct Hp.
    + destruct Hp as [<- | []]. discriminate.
Defined.

Lemma get_property_key k o x :
  get_property k o = Some x -> In k (Object_keys o).
Proof.
  induction o as [|[k' y] o IH]; cbn [get_property]; [discriminate|].
  destruct (String.eqb_spec k k') as [-> | _]; intros H.
  - now left.
  - right. now apply IH.
Qed.

(** X26: on any registry that holds the wildcard array, a frame that
    begins with [_everyTime] makes the listener throw a TypeError: the
    handlers it reached before are header handlers whose token is a prefix
    of the frame, and the loop over the wildcard handlers is never
    entered. *)
Theorem unsolicited_reserved_key_always_throws :
  forall data w fs,
    is_live w = true ->
    get_property "_everyTime" (notificationCallbacks w) = Some (VArr fs) ->
    String.prefix "_everyTime" data = true ->
    let w' := unsolicited_listener data w in
    state w' = Threw (TypeError "notificationCallbacks[key] is not a function")
    /\ exists hs,
         log w' = (log w ++ map (fun h => EvInvoke h data) hs)%list
         /\ forall h, In h hs ->
              exists k, get_property k (notificationCallbacks w) = Some (VFun h)
                        /\ String.prefix k data = true.
Proof.
  intros data w fs Hlive Hres Hpre. cbv zeta.
  assert (Hne : String.eqb data EmptyString = false).
  { destruct data; [discriminate Hpre | reflexivity]. }
  unfold unsolicited_listener.
  set (body := fun (key : string) (w' : World) => _).
  set (ncb := notificationCallbacks w) in *.
  assert (Hloop : forall keys w0,
            is_live w0 = true -> notificationCallbacks w0 = ncb ->
            In "_everyTime" keys ->
            state (forEach keys body w0)
              = Threw (TypeError "notificationCallbacks[key] is not a function")
            /\ exists hs,
                 log (forEach keys body w0) = (log w0 ++ map (fun h => EvInvoke h data) hs)%list
                 /\ forall h, In h hs ->
                      exists k, get_property k ncb = Some (VFun h)
                                /\ String.prefix k data = true).
  { induction keys as [|k keys IH]; intros w0 Hl0 Hn0 Hin; [contradiction|].
    cbn [forEach]. unfold seq.
    assert (Hbody : body k w0 =
              if String.prefix k data then
                match get_property k ncb with
                | Some (VFun h) => emit_event (EvInvoke h data) w0
                | _ => throw (TypeError "notificationCallbacks[key] is not a function") w0
                end
              else w0).
    { unfold body. now rewrite Hne, Hn0. }
    rewrite Hbody.
    destruct (String.prefix k data) eqn:Hk.
    - destruct (get_property k ncb) as [[h|arr]|] eqn:Hget.
      + change (is_live (emit_event (EvInvoke h data) w0)) with (is_live w0). rewrite Hl0.
        destruct Hin as [-> | Hin]; [congruence|].
        destruct (IH (emit_event (EvInvoke h data) w0) Hl0 Hn0 Hin) as (Hst & hs & Hlog & Hhs).
        split; [exact Hst|]. exists (h :: hs). split.
        * rewrite Hlog. cbn. now rewrite <- app_assoc.
        * intros h' [<- | Hh']; [exists k; now split | now apply Hhs].
      + split; [reflexivity|]. exists []. split; [cbn; now rewrite app_nil_r | intros h []].
      + split; [reflexivity|]. exists []. split; [cbn; now rewrite app_nil_r | intros h []].
    - rewrite Hl0. destruct Hin as [-> | Hin]; [congruence|].
      now apply IH. }
  destruct (Hloop (Object_keys ncb) w Hlive eq_refl (get_property_key _ _ _ Hres))
    as (Hst & hs & Hlog & Hhs).
  unfold seq.
  assert (Hdead : is_live (forEach (Object_keys ncb) body w) = false).
  { unfold is_live. now rewrite Hst. }
  rewrite Hdead. split; [exact Hst|]. exists hs. split; assumption.
Qed.

Lemma unsolicited_reserved_key_always_throws_witness :
  state (unsolicited_listener "_everyTime is now" registered)
    = Threw (TypeError "notificationCallbacks[key] is not a function")
  /\ exists hs,
       log (unsolicited_listener "_everyTime is now" registered)
         = (log registered ++ map (fun h => EvInvoke h "_everyTime is now") hs)%list
       /\ forall h, In h hs ->
            exists k, get_property k (notificationCallbacks registered) = Some (VFun h)
                      /\ String.prefix k "_everyTime is now" = true.
Proof.
  apply (unsolicited_reserved_key_always_throws "_everyTime is now" registered
           [1%nat; 2%nat]).
  - reflexivity.
  - reflexivity.
  - reflexivity.
Defined.

(** X25: [notifyOn] with no header under the reserved key does not throw
    and keeps the registry well formed: distinct keys, the wildcard array
    under [_everyTime], a function under every other key. *)
Theorem notifyOn_preserves_registry :
  forall pairs everyTime w,
    is_live w = true ->
    registry_ok (notificationCallbacks w) ->
    (forall p, In p pairs -> fst p <> "_everyTime") ->
    state (notifyOn pairs everyTime w) = Live
    /\ registry_ok (notificationCallbacks (notifyOn pairs everyTime w)).
Proof.
  intros pairs everyTime w Hlive Hok Hpairs.
  destruct (notifyOn_keeps_registry pairs everyTime w Hlive Hok Hpairs) as (Hl & Hr).
  split; [now apply is_live_state | exact Hr].
Qed.

Lemma notifyOn_preserves_registry_witness :
  state (notifyOn [("RING", 4%nat)] (Some [1%nat]) new_GPRS) = Live
  /\ registry_ok (notificationCallbacks (notifyOn [("RING", 4%nat)] (Some [1%nat]) new_GPRS)).
Proof.
  apply (notifyOn_preserves_registry [("RING", 4%nat)] (Some [1%nat]) new_GPRS).
  - reflexivity.
  - exact registry_ok_new_GPRS.
  - intros p [<- | []]. discriminate.
Defined.
